(** * Product text customizer: the canvas previewer of the theme block

    A shallow embedding of [initializeProductCustomizer] (the storefront
    script) and of the handlers it installs: [baseImage.onload],
    [baseImage.onerror], [redrawCanvas], [handleTextInput] and the
    already-complete branch that replays the sizing logic at bind time.

    Conventions of the embedding.
    - A JavaScript number is an IEEE 754 binary64 value: [float].  [===],
      [>] on numbers are [=?], [<?] of [PrimFloat]; [*] and [/] are the
      float operations.
    - A property that may be absent ([undefined]) is an [option]; [a || b]
      and [if (a)] go through the truthiness of the value.
    - The closure variables of one instance ([canvas], [ctx], [textInput],
      [baseImage], [currentText], [settings], [imageUrl]) are the fields of
      the record [Instance]; every handler is a function on [Instance].
    - The drawing surface is a display list of the paint operations whose
      result is still visible; [clearRect] over the rectangle of the whole
      canvas empties it.
    - [canvas.width], [canvas.height], [naturalWidth] and [naturalHeight]
      are [unsigned long] attributes of the host: a [Dimension] is a number
      such an attribute can hold.  An assignment to [canvas.width] or
      [canvas.height] converts the number assigned as the host does, and
      clears the canvas and resets the context to its default state. *)

From Stdlib Require Import Bool List String ZArith Floats Eqdep_dec.
From Stdlib Require Uint63.
Import ListNotations.

Local Open Scope string_scope.
Local Open Scope float_scope.

(** ** JavaScript values *)

Module Js.

(** [x === y] on two numbers. *)
Definition strict_eq (x y : float) : bool := (x =? y)%float.

(** [x > y] on two numbers. *)
Definition gt (x y : float) : bool := (y <? x)%float.

(** ToBoolean on a number: [+0], [-0] and [NaN] are falsy. *)
Definition truthy_number (x : float) : bool :=
  negb (x =? 0)%float && negb (is_nan x).

(** ToBoolean on a string: only the empty string is falsy. *)
Definition truthy_string (x : string) : bool :=
  negb (x =? "")%string.

(** ToBoolean on a property that may be absent: [undefined] is falsy. *)
Definition truthy {A : Type} (t : A -> bool) (x : option A) : bool :=
  match x with
  | Some v => t v
  | None => false
  end.

(** [x || d] where [d] is a literal of the type of [x]. *)
Definition or_else {A : Type} (t : A -> bool) (x : option A) (d : A) : A :=
  match x with
  | Some v => if t v then v else d
  | None => d
  end.

(** [x === 0] where [x] may be absent: [undefined === 0] is false. *)
Definition is_zero (x : option float) : bool :=
  match x with
  | Some v => strict_eq v 0
  | None => false
  end.

(** ToString on a string that may be absent, as a template literal or a
    DOMString argument converts it. *)
Definition to_string (x : option string) : string :=
  match x with
  | Some v => v
  | None => "undefined"
  end.

End Js.

(** ** The two typedefs of the script *)

Record CustomizerSettings : Type := {
  default_text : option string;
  text_color : option string;
  font_size : option float;
  font_family : option string;
  text_pos_x_percent : option float;
  text_pos_y_percent : option float;
  image_max_width : option float
}.

Record CustomizerInstanceConfig : Type := {
  settings : CustomizerSettings;
  imageUrl : option string;
  productId : option string
}.

(** ** Whole-number attributes of the host *)

(** The whole number [x] truncates to; none for [NaN] and the
    infinities. *)
Definition whole_part (x : float) : option Z :=
  match Prim2SF x with
  | S754_zero _ => Some 0%Z
  | S754_finite s m e =>
      let a :=
        if (0 <=? e)%Z then (Zpos m * 2 ^ e)%Z
        else (Zpos m / 2 ^ (- e))%Z in
      Some (if s then (- a)%Z else a)
  | S754_infinity _ | S754_nan => None
  end.

(** The number that is the integer [z]. *)
Definition number_of_Z (z : Z) : float :=
  PrimFloat.of_uint63 (Uint63.of_Z z).

(** The conversion of a number to [unsigned long]: [NaN] and the
    infinities give 0, another number its whole part modulo 2^32. *)
Definition ToUint32 (x : float) : Z :=
  match whole_part x with
  | Some z => (z mod 4294967296)%Z
  | None => 0%Z
  end.

(** [x] is a whole number from 0 to 2147483647, what a reflecting
    [unsigned long] attribute holds. *)
Definition is_dimension (x : float) : bool :=
  match whole_part x with
  | Some z =>
      (0 <=? z)%Z && (z <=? 2147483647)%Z && Leibniz.eqb (number_of_Z z) x
  | None => false
  end.

Record Dimension : Type := {
  number :> float;
  number_is_dimension : is_dimension number = true
}.

(** What an [unsigned long] attribute with a default holds after the
    assignment of [v]: [v] converted when that is in the range of the
    attribute, the default otherwise. *)
Definition to_dimension (default : Dimension) (v : float) : Dimension :=
  let t := number_of_Z (ToUint32 v) in
  (if is_dimension t as b return (is_dimension t = b -> Dimension)
   then fun H => {| number := t; number_is_dimension := H |}
   else fun _ => default) eq_refl.

(** The defaults of [canvas.width] and [canvas.height]. *)
Definition default_width : Dimension :=
  {| number := 300; number_is_dimension := eq_refl |}.

Definition default_height : Dimension :=
  {| number := 150; number_is_dimension := eq_refl |}.

(** The dimension that a whole number [x] from 0 to 2147483647 is (what
    an attribute of default 300 holds after the assignment of [x]). *)
Definition px (x : float) : Dimension := to_dimension default_width x.

(** ** The host objects the script works on *)

(** The value of [ctx.font] written as [`${size}px ${family}`]. *)
Record Font : Type := {
  font_px : float;
  font_face : string
}.

(** [new Image()] and what the host makes of it.  [fetching] is host state:
    [src] was assigned and neither [load] nor [error] was delivered yet. *)
Record HTMLImageElement : Type := {
  src : option string;
  crossOrigin : option string;
  complete : bool;
  naturalWidth : Dimension;
  naturalHeight : Dimension;
  fetching : bool
}.

(** One paint operation, with the context state it was issued under. *)
Inductive Paint : Type :=
| PaintClear (x y w h : float)
| PaintRect (style : string) (x y w h : float)
| PaintImage (image : HTMLImageElement) (dx dy dw dh : float)
| PaintText (style : string) (fnt : Font) (align baseline : string)
    (text : string) (x y : float).

Record CanvasRenderingContext2D : Type := {
  fillStyle : string;
  font : Font;
  textAlign : string;
  textBaseline : string;
  surface : list Paint
}.

(** [width_attribute] is the number that
    [parseFloat(canvas.getAttribute('width'))] evaluates to: [NaN] when the
    markup gives the canvas no numeric [width]. *)
Record HTMLCanvasElement : Type := {
  width : Dimension;
  height : Dimension;
  width_attribute : float
}.

(** A canvas of the page and what [canvas.getContext('2d')] returns
    for it ([None] is [null]). *)
Record CanvasNode : Type := {
  canvas_element : HTMLCanvasElement;
  getContext_2d : option CanvasRenderingContext2D
}.

(** The functions the script registers as event listeners. *)
Inductive Listener : Type :=
| HandleTextInput.

Record HTMLInputElement : Type := {
  value : string;
  listeners : list (string * Listener)
}.

(** The page in document order.  Under the ids the script asks for, the
    theme block renders a canvas and a text input; of an input the page
    fixes the value it holds when the script runs. *)
Record Document : Type := {
  canvases : list (string * CanvasNode);
  inputs : list (string * string)
}.

(** The host: the page and the images that are available without a fetch
    (their URL and natural size). *)
Record Host : Type := {
  document : Document;
  available_images : list (string * (Dimension * Dimension))
}.

Fixpoint lookup {A : Type} (id : string) (l : list (string * A)) : option A :=
  match l with
  | [] => None
  | (k, v) :: l' => if (k =? id)%string then Some v else lookup id l'
  end.

(** [document.getElementById(id)] for an id of a canvas. *)
Definition getCanvasById (d : Document) (id : string) : option CanvasNode :=
  lookup id (canvases d).

(** [document.getElementById(id)] for an id of a text input: the element
    comes with no listener of the instance yet. *)
Definition getInputById (d : Document) (id : string) : option HTMLInputElement :=
  match lookup id (inputs d) with
  | Some v => Some {| value := v; listeners := [] |}
  | None => None
  end.

(** ** One customizer instance: the variables its closures share *)

Record Instance : Type := {
  blockId : string;
  config : CustomizerInstanceConfig;
  canvas : HTMLCanvasElement;
  ctx : CanvasRenderingContext2D;
  textInput : HTMLInputElement;
  baseImage : HTMLImageElement;
  currentText : option string;
  console : list string
}.

Definition with_canvas (c : HTMLCanvasElement) (s : Instance) : Instance :=
  {| blockId := blockId s; config := config s; canvas := c; ctx := ctx s;
     textInput := textInput s; baseImage := baseImage s;
     currentText := currentText s; console := console s |}.

Definition with_ctx (c : CanvasRenderingContext2D) (s : Instance) : Instance :=
  {| blockId := blockId s; config := config s; canvas := canvas s; ctx := c;
     textInput := textInput s; baseImage := baseImage s;
     currentText := currentText s; console := console s |}.

Definition with_textInput (t : HTMLInputElement) (s : Instance) : Instance :=
  {| blockId := blockId s; config := config s; canvas := canvas s;
     ctx := ctx s; textInput := t; baseImage := baseImage s;
     currentText := currentText s; console := console s |}.

Definition with_baseImage (i : HTMLImageElement) (s : Instance) : Instance :=
  {| blockId := blockId s; config := config s; canvas := canvas s;
     ctx := ctx s; textInput := textInput s; baseImage := i;
     currentText := currentText s; console := console s |}.

Definition with_currentText (t : option string) (s : Instance) : Instance :=
  {| blockId := blockId s; config := config s; canvas := canvas s;
     ctx := ctx s; textInput := textInput s; baseImage := baseImage s;
     currentText := t; console := console s |}.

(** [console.error(msg)]. *)
Definition console_error (msg : string) (s : Instance) : Instance :=
  {| blockId := blockId s; config := config s; canvas := canvas s;
     ctx := ctx s; textInput := textInput s; baseImage := baseImage s;
     currentText := currentText s; console := console s ++ [msg] |}.

(** *** Assignments to the canvas and to the text input *)

(** The default state of a 2D context, on a cleared canvas. *)
Definition default_ctx : CanvasRenderingContext2D :=
  {| fillStyle := "#000000";
     font := {| font_px := 10; font_face := "sans-serif" |};
     textAlign := "start"; textBaseline := "alphabetic"; surface := [] |}.

(** [canvas.width = v]: the attribute takes [v] as an [unsigned long]
    (the content attribute with it), the canvas is cleared and its context
    reset. *)
Definition set_canvas_width (v : float) (s : Instance) : Instance :=
  let w := to_dimension default_width v in
  with_ctx default_ctx
    (with_canvas {| width := w; height := height (canvas s);
                    width_attribute := w |} s).

(** [canvas.height = v], likewise. *)
Definition set_canvas_height (v : float) (s : Instance) : Instance :=
  with_ctx default_ctx
    (with_canvas {| width := width (canvas s);
                    height := to_dimension default_height v;
                    width_attribute := width_attribute (canvas s) |} s).

(** [textInput.value = v]. *)
Definition set_input_value (v : string) (s : Instance) : Instance :=
  with_textInput {| value := v; listeners := listeners (textInput s) |} s.

(** [textInput.addEventListener(type, f)]. *)
Definition addEventListener (type : string) (f : Listener) (s : Instance)
  : Instance :=
  with_textInput {| value := value (textInput s);
                    listeners := listeners (textInput s) ++ [(type, f)] |} s.

(** *** The 2D context *)

Definition set_fillStyle (v : string) (s : Instance) : Instance :=
  with_ctx {| fillStyle := v; font := font (ctx s);
              textAlign := textAlign (ctx s);
              textBaseline := textBaseline (ctx s);
              surface := surface (ctx s) |} s.

Definition set_font (v : Font) (s : Instance) : Instance :=
  with_ctx {| fillStyle := fillStyle (ctx s); font := v;
              textAlign := textAlign (ctx s);
              textBaseline := textBaseline (ctx s);
              surface := surface (ctx s) |} s.

Definition set_textAlign (v : string) (s : Instance) : Instance :=
  with_ctx {| fillStyle := fillStyle (ctx s); font := font (ctx s);
              textAlign := v; textBaseline := textBaseline (ctx s);
              surface := surface (ctx s) |} s.

Definition set_textBaseline (v : string) (s : Instance) : Instance :=
  with_ctx {| fillStyle := fillStyle (ctx s); font := font (ctx s);
              textAlign := textAlign (ctx s); textBaseline := v;
              surface := surface (ctx s) |} s.

Definition set_surface (l : list Paint) (s : Instance) : Instance :=
  with_ctx {| fillStyle := fillStyle (ctx s); font := font (ctx s);
              textAlign := textAlign (ctx s);
              textBaseline := textBaseline (ctx s); surface := l |} s.

(** The rectangle is the one of the whole canvas:
    [(0, 0, canvas.width, canvas.height)]. *)
Definition whole_canvas (x y w h : float) (c : HTMLCanvasElement) : bool :=
  Leibniz.eqb x 0 && Leibniz.eqb y 0
  && Leibniz.eqb w (width c) && Leibniz.eqb h (height c).

(** [ctx.clearRect(x, y, w, h)]: nothing painted before stays visible when
    the whole canvas is cleared. *)
Definition clearRect (x y w h : float) (s : Instance) : Instance :=
  if whole_canvas x y w h (canvas s) then set_surface [] s
  else set_surface (surface (ctx s) ++ [PaintClear x y w h]) s.

(** [ctx.fillRect(x, y, w, h)]. *)
Definition fillRect (x y w h : float) (s : Instance) : Instance :=
  set_surface (surface (ctx s) ++ [PaintRect (fillStyle (ctx s)) x y w h]) s.

(** [ctx.drawImage(image, dx, dy, dw, dh)]. *)
Definition drawImage (image : HTMLImageElement) (dx dy dw dh : float)
  (s : Instance) : Instance :=
  set_surface (surface (ctx s) ++ [PaintImage image dx dy dw dh]) s.

(** [ctx.fillText(text, x, y)]. *)
Definition fillText (text : string) (x y : float) (s : Instance) : Instance :=
  set_surface
    (surface (ctx s)
     ++ [PaintText (fillStyle (ctx s)) (font (ctx s)) (textAlign (ctx s))
           (textBaseline (ctx s)) text x y]) s.

(** ** The handlers of one instance *)

(** [redrawCanvas()]: background image, then the text. *)
Definition redrawCanvas (s : Instance) : Instance :=
  if negb (complete (baseImage s))
     || Js.strict_eq (naturalWidth (baseImage s)) 0
  then s
  else
    let st := settings (config s) in
    let s := clearRect 0 0 (width (canvas s)) (height (canvas s)) s in
    let s :=
      drawImage (baseImage s) 0 0 (width (canvas s)) (height (canvas s)) s in
    let s :=
      set_fillStyle (Js.or_else Js.truthy_string (text_color st) "#000000") s in
    let s :=
      set_font
        {| font_px := Js.or_else Js.truthy_number (font_size st) 30;
           font_face := Js.or_else Js.truthy_string (font_family st) "Arial" |}
        s in
    let s := set_textAlign "center" s in
    let s := set_textBaseline "middle" s in
    let textX :=
      (width (canvas s)
       * Js.or_else Js.truthy_number (text_pos_x_percent st) 50) / 100 in
    let textY :=
      (height (canvas s)
       * Js.or_else Js.truthy_number (text_pos_y_percent st) 50) / 100 in
    fillText (Js.to_string (currentText s)) textX textY s.

(** What [redrawCanvas] leaves in the context when it draws, in closed
    form: the styles it sets and, on the cleared surface, the image over
    the whole canvas and the text at its anchor ([redrawCanvas_ready]
    relates it to the code). *)
Definition drawn_ctx (s : Instance) : CanvasRenderingContext2D :=
  let st := settings (config s) in
  let style := Js.or_else Js.truthy_string (text_color st) "#000000" in
  let fnt :=
    {| font_px := Js.or_else Js.truthy_number (font_size st) 30;
       font_face := Js.or_else Js.truthy_string (font_family st) "Arial" |} in
  {| fillStyle := style; font := fnt; textAlign := "center";
     textBaseline := "middle";
     surface :=
       [PaintImage (baseImage s) 0 0 (width (canvas s)) (height (canvas s));
        PaintText style fnt "center" "middle" (Js.to_string (currentText s))
          ((width (canvas s)
            * Js.or_else Js.truthy_number (text_pos_x_percent st) 50) / 100)
          ((height (canvas s)
            * Js.or_else Js.truthy_number (text_pos_y_percent st) 50) / 100)]
  |}.

(** [baseImage.onload]: size the canvas on the loaded image, synchronise
    the text input, first draw. *)
Definition onload (s : Instance) : Instance :=
  let st := settings (config s) in
  let imageAspectRatio :=
    naturalHeight (baseImage s) / naturalWidth (baseImage s) in
  let canvasWidth : float := width (canvas s) in
  let canvasWidth : float :=
    if Js.is_zero (image_max_width st)
       || Js.gt canvasWidth (naturalWidth (baseImage s))
    then naturalWidth (baseImage s)
    else canvasWidth in
  let s := set_canvas_width canvasWidth s in
  let s := set_canvas_height (canvasWidth * imageAspectRatio) s in
  let s :=
    if (value (textInput s) =? "")%string
       && Js.truthy Js.truthy_string (default_text st)
    then
      let s := set_input_value (Js.to_string (default_text st)) s in
      with_currentText (default_text st) s
    else with_currentText (Some (value (textInput s))) s in
  redrawCanvas s.

(** The instance that [onload] hands to [redrawCanvas], in closed form: the
    canvas sized on the image and cleared, the text input and the current
    text synchronised ([onload_closed_form] relates it to the code). *)
Definition sized_and_synced (s : Instance) : Instance :=
  let st := settings (config s) in
  let nw : float := naturalWidth (baseImage s) in
  let w : float :=
    if Js.is_zero (image_max_width st) || Js.gt (width (canvas s)) nw
    then nw else width (canvas s) in
  let fill :=
    (value (textInput s) =? "")%string
    && Js.truthy Js.truthy_string (default_text st) in
  {| blockId := blockId s; config := config s;
     canvas :=
       {| width := to_dimension default_width w;
          height :=
            to_dimension default_height
              (w * (naturalHeight (baseImage s) / nw));
          width_attribute := to_dimension default_width w |};
     ctx := default_ctx;
     textInput :=
       if fill
       then {| value := Js.to_string (default_text st);
               listeners := listeners (textInput s) |}
       else textInput s;
     baseImage := baseImage s;
     currentText :=
       if fill then default_text st else Some (value (textInput s));
     console := console s |}.

(** [baseImage.onerror]: the gray placeholder of a failed load. *)
Definition onerror (s : Instance) : Instance :=
  let s :=
    console_error
      ("[Customizer " ++ blockId s ++ "]：无法加载图片: "
       ++ Js.to_string (imageUrl (config s))) s in
  let s := set_fillStyle "#cccccc" s in
  let s := fillRect 0 0 (width (canvas s)) (height (canvas s)) s in
  let s := set_fillStyle "#000000" s in
  let s := set_textAlign "center" s in
  fillText "图片加载失败" (width (canvas s) / 2) (height (canvas s) / 2) s.

(** The event object of an [input] event: [event.target] is the input. *)
Record InputEventObject : Type := {
  target : HTMLInputElement
}.

(** [handleTextInput(event)]. *)
Definition handleTextInput (event : InputEventObject) (s : Instance)
  : Instance :=
  let s := with_currentText (Some (value (target event))) s in
  redrawCanvas s.

(** The branch that closes [initializeProductCustomizer]: the image is
    complete at bind time, the logic of [onload] is replayed by hand. *)
Definition alreadyCompleteBranch (s : Instance) : Instance :=
  if complete (baseImage s) && Js.gt (naturalWidth (baseImage s)) 0
  then
    let st := settings (config s) in
    let imageAspectRatio :=
      naturalHeight (baseImage s) / naturalWidth (baseImage s) in
    let canvasWidth : float := width_attribute (canvas s) in
    let canvasWidth : float :=
      if Js.is_zero (image_max_width st)
         || Js.gt canvasWidth (naturalWidth (baseImage s))
      then naturalWidth (baseImage s)
      else canvasWidth in
    let s := set_canvas_width canvasWidth s in
    let s := set_canvas_height (canvasWidth * imageAspectRatio) s in
    let s :=
      if (value (textInput s) =? "")%string
         && Js.truthy Js.truthy_string (default_text st)
      then
        let s := set_input_value (Js.to_string (default_text st)) s in
        with_currentText (default_text st) s
      else with_currentText (Some (value (textInput s))) s in
    redrawCanvas s
  else s.

(** ** Initialisation *)

(** [new Image()]: no source yet, nothing to wait for. *)
Definition new_Image : HTMLImageElement :=
  {| src := None; crossOrigin := None; complete := true;
     naturalWidth := px 0; naturalHeight := px 0; fetching := false |}.

(** [baseImage.crossOrigin = v]. *)
Definition set_crossOrigin (v : string) (i : HTMLImageElement)
  : HTMLImageElement :=
  {| src := src i; crossOrigin := Some v; complete := complete i;
     naturalWidth := naturalWidth i; naturalHeight := naturalHeight i;
     fetching := fetching i |}.

(** [baseImage.src = url]: the host starts the load.  An image it has
    available is complete at once, with its natural size; the [load] event
    still follows. *)
Definition set_src (h : Host) (url : string) (i : HTMLImageElement)
  : HTMLImageElement :=
  match lookup url (available_images h) with
  | Some (w, ht) =>
      {| src := Some url; crossOrigin := crossOrigin i; complete := true;
         naturalWidth := w; naturalHeight := ht; fetching := true |}
  | None =>
      {| src := Some url; crossOrigin := crossOrigin i; complete := false;
         naturalWidth := px 0; naturalHeight := px 0; fetching := true |}
  end.

(** What a call of [initializeProductCustomizer] leaves behind: nothing but
    the console output when it returned before binding anything, or the
    instance whose closures it created. *)
Inductive InitResult : Type :=
| Aborted (log : list string)
| Bound (s : Instance).

Definition initializeProductCustomizer (h : Host) (blockId : string)
  (config : CustomizerInstanceConfig) : InitResult :=
  match getCanvasById (document h) ("customizer-canvas-" ++ blockId),
        getInputById (document h) ("customizer-text-input-" ++ blockId) with
  | Some canvasNode, Some textInput =>
      match getContext_2d canvasNode with
      | None =>
          Aborted ["[Customizer " ++ blockId ++ "]：无法获取 Canvas 2D 上下文。"]
      | Some ctx =>
          let currentText :=
            if Js.truthy_string (value textInput)
            then Some (value textInput)
            else default_text (settings config) in
          let s :=
            {| blockId := blockId; config := config;
               canvas := canvas_element canvasNode; ctx := ctx;
               textInput := textInput;
               baseImage := set_crossOrigin "anonymous" new_Image;
               currentText := currentText; console := [] |} in
          if Js.truthy Js.truthy_string (imageUrl config)
          then
            let s :=
              with_baseImage
                (set_src h (Js.to_string (imageUrl config)) (baseImage s)) s in
            let s := addEventListener "input" HandleTextInput s in
            Bound (alreadyCompleteBranch s)
          else
            let s :=
              console_error
                ("[Customizer " ++ blockId ++ "]：图片 URL (imageUrl) 未提供。") s in
            let s := set_fillStyle "#cccccc" s in
            let s :=
              fillRect 0 0 (width (canvas s)) (height (canvas s)) s in
            let s := set_fillStyle "#000000" s in
            let s := set_textAlign "center" s in
            Bound
              (fillText "未找到图片URL"
                 (width (canvas s) / 2) (height (canvas s) / 2) s)
      end
  | _, _ =>
      Aborted ["[Customizer " ++ blockId ++ "]：Canvas 或输入框未在 DOM 中找到。"]
  end.

(** The host [h] with the canvas and the text input of block [b] put in
    front of what its page has. *)
Definition with_block_elements (b : string) (node : CanvasNode) (v : string)
  (h : Host) : Host :=
  {| document :=
       {| canvases :=
            ("customizer-canvas-" ++ b, node) :: canvases (document h);
          inputs :=
            ("customizer-text-input-" ++ b, v) :: inputs (document h) |};
     available_images := available_images h |}.

(** ** Events the host delivers to an instance *)

Inductive Event : Type :=
| LoadEvent (nw nh : Dimension)
| ErrorEvent
| InputEvent (v : string).

(** The image once its data arrived, with the natural size decoded. *)
Definition image_loaded (nw nh : Dimension) (i : HTMLImageElement)
  : HTMLImageElement :=
  {| src := src i; crossOrigin := crossOrigin i; complete := true;
     naturalWidth := nw; naturalHeight := nh; fetching := false |}.

(** The image once its load failed: broken, of natural size zero. *)
Definition image_broken (i : HTMLImageElement) : HTMLImageElement :=
  {| src := src i; crossOrigin := crossOrigin i; complete := true;
     naturalWidth := px 0; naturalHeight := px 0; fetching := false |}.

Definition call_listener (f : Listener) (event : InputEventObject)
  (s : Instance) : Instance :=
  match f with
  | HandleTextInput => handleTextInput event s
  end.

(** The listeners registered for [type], called in registration order. *)
Fixpoint call_listeners (type : string) (fs : list (string * Listener))
  (event : InputEventObject) (s : Instance) : Instance :=
  match fs with
  | [] => s
  | (t, f) :: fs' =>
      call_listeners type fs' event
        (if (t =? type)%string then call_listener f event s else s)
  end.

(** One event.  The host delivers [load] or [error] once per assignment of
    [src], and the script assigns [src] at most once: these two are
    possible only while the image is being fetched ([None]: the host cannot
    deliver the event in this state).  A [load] brings the natural size of
    the image, an [input] what the input holds after the edit; the user may
    type at any time. *)
Definition dispatch (e : Event) (s : Instance) : option Instance :=
  match e with
  | LoadEvent nw nh =>
      if fetching (baseImage s)
      then Some (onload (with_baseImage (image_loaded nw nh (baseImage s)) s))
      else None
  | ErrorEvent =>
      if fetching (baseImage s)
      then Some (onerror (with_baseImage (image_broken (baseImage s)) s))
      else None
  | InputEvent v =>
      let s := set_input_value v s in
      Some (call_listeners "input" (listeners (textInput s))
              {| target := textInput s |} s)
  end.

Fixpoint run (es : list Event) (s : Instance) : option Instance :=
  match es with
  | [] => Some s
  | e :: es' =>
      match dispatch e s with
      | Some s' => run es' s'
      | None => None
      end
  end.

(** *** The life cycle of an instance *)

(** The phases of a bound instance (before initialisation there is no
    instance): waiting for the image, able to draw it, or without an image
    to draw or to wait for. *)
Inductive Phase : Type :=
| ImageLoading
| Ready
| ErrorState.

(** The image passes the guard of [redrawCanvas]. *)
Definition image_ready (i : HTMLImageElement) : bool :=
  complete i && negb (Js.strict_eq (naturalWidth i) 0).

Definition phase (s : Instance) : Phase :=
  if image_ready (baseImage s) then Ready
  else if fetching (baseImage s) then ImageLoading
  else ErrorState.

(** The paint is the placeholder text of a missing image URL. *)
Definition is_url_placeholder (p : Paint) : bool :=
  match p with
  | PaintText _ _ _ _ text _ _ => (text =? "未找到图片URL")%string
  | _ => false
  end.

(** The paint is a background image. *)
Definition is_background (p : Paint) : bool :=
  match p with
  | PaintImage _ _ _ _ _ => true
  | _ => false
  end.

(** The text that the last paint on a surface wrote, if it wrote one. *)
Definition drawn_text (l : list Paint) : option string :=
  match last l (PaintClear 0 0 0 0) with
  | PaintText _ _ _ _ text _ _ => Some text
  | _ => None
  end.

(** Initialisation left the placeholder of a missing URL on the canvas of
    its instance; when it bound no instance it painted nothing. *)
Definition placeholder_painted (r : InitResult) : bool :=
  match r with
  | Bound s => existsb is_url_placeholder (surface (ctx s))
  | Aborted _ => false
  end.

(** ** The page-ready handler *)

(** One property that [for (const blockId in window.productCustomizers)]
    enumerates: its key, whether the registry owns it
    ([hasOwnProperty]) or inherits it, and its value.  The registry is the
    list of them in enumeration order. *)
Record RegistryEntry : Type := {
  entry_key : string;
  entry_own : bool;
  entry_config : CustomizerInstanceConfig
}.

(** What an initialisation wrote to the console. *)
Definition init_log (r : InitResult) : list string :=
  match r with
  | Aborted log => log
  | Bound s => console s
  end.

(** The body of the loop for one enumerated property, from the console
    lines and the initialisations done so far. *)
Definition initializeEntry (h : Host)
  (acc : list string * list (string * InitResult)) (e : RegistryEntry)
  : list string * list (string * InitResult) :=
  if entry_own e
  then
    let r := initializeProductCustomizer h (entry_key e) (entry_config e) in
    ((fst acc
      ++ [("[Customizer] 初始化 Block ID: " ++ entry_key e)%string]
      ++ init_log r)%list,
     (snd acc ++ [(entry_key e, r)])%list)
  else acc.

(** The listener of [DOMContentLoaded]; [None] is a page on which
    [window.productCustomizers] is not defined.  It returns the console
    lines in order and, per block initialised, what initialisation left. *)
Definition onDOMContentLoaded (h : Host)
  (productCustomizers : option (list RegistryEntry))
  : list string * list (string * InitResult) :=
  match productCustomizers with
  | Some entries => fold_left (initializeEntry h) entries ([], [])
  | None => ([], [])
  end.

(** ** The product list of the admin page *)

Module Admin.

(** [s.startsWith(p)]. *)
Fixpoint starts_with (p s : string) : bool :=
  match p, s with
  | EmptyString, _ => true
  | String a p', String b s' => Ascii.eqb a b && starts_with p' s'
  | String _ _, EmptyString => false
  end.

(** [s] without its first [n] characters. *)
Fixpoint drop (n : nat) (s : string) : string :=
  match n, s with
  | O, _ => s
  | S n', String _ s' => drop n' s'
  | S _, EmptyString => EmptyString
  end.

(** [s.replace(search, replacement)] for a string [search] and a
    [replacement] without [$]: the first occurrence of [search] is
    replaced, a string without occurrence is returned as it is. *)
Fixpoint replace (search replacement s : string) : string :=
  if starts_with search s
  then replacement ++ drop (String.length search) s
  else
    match s with
    | EmptyString => EmptyString
    | String c s' => String c (replace search replacement s')
    end.

(** [search] occurs somewhere in [s]. *)
Fixpoint occurs (search s : string) : bool :=
  starts_with search s
  || match s with
     | EmptyString => false
     | String _ s' => occurs search s'
     end.

(** The fields of the GraphQL answer that [renderItem] reads.  A selection
    that the answer leaves out or gives as [null] is [None]; amounts and
    currency codes are strings, as the API serialises its [Decimal] and
    [CurrencyCode] scalars, the inventory is an [Int]. *)
Record Money : Type := {
  amount : option string;
  currencyCode : string
}.

Record PriceRange : Type := {
  minVariantPrice : option Money
}.

Record Image : Type := {
  url : option string
}.

Record Product : Type := {
  id : string;
  title : string;
  status : string;
  totalInventory : Z;
  priceRangeV2 : option PriceRange;
  images : option (list Image)
}.

(** [<Thumbnail source=... alt=... />]. *)
Record Thumbnail : Type := {
  thumbnail_source : string;
  thumbnail_alt : string
}.

(** What [renderItem] hands to [ResourceItem] and to its three lines. *)
Record ResourceItem : Type := {
  item_id : string;
  item_url : string;
  item_media : option Thumbnail;
  item_title : string;
  item_price : string;
  item_status : string;
  item_inventory : Z
}.

(** [priceRangeV2?.minVariantPrice?.amount]. *)
Definition min_amount (p : option PriceRange) : option (Money * string) :=
  match p with
  | Some r =>
      match minVariantPrice r with
      | Some m =>
          match amount m with
          | Some a => Some (m, a)
          | None => None
          end
      | None => None
      end
  | None => None
  end.

(** [images?.nodes[0]?.url]. *)
Definition first_image_url (i : option (list Image)) : option string :=
  match i with
  | Some (first :: _) => url first
  | _ => None
  end.

Definition renderItem (item : Product) : ResourceItem :=
  let price :=
    match min_amount (priceRangeV2 item) with
    | Some (m, a) =>
        if Js.truthy_string a then currencyCode m ++ " " ++ a
        else "未设置价格"
    | None => "未设置价格"
    end in
  let media :=
    match first_image_url (images item) with
    | Some u =>
        if Js.truthy_string u
        then Some {| thumbnail_source := u; thumbnail_alt := title item |}
        else None
    | None => None
    end in
  {| item_id := id item;
     item_url :=
       "shopify:admin/products/"
       ++ replace "gid://shopify/Product/" "" (id item);
     item_media := media;
     item_title := title item;
     item_price := price;
     item_status := status item;
     item_inventory := totalInventory item |}.

(** The string has a space among its characters. *)
Fixpoint has_space (s : string) : bool :=
  match s with
  | EmptyString => false
  | String c s' =>
      Ascii.eqb c (Ascii.Ascii false false false false false true false false)
      || has_space s'
  end.

(** What [AdditionalPage] shows for the loader data. *)
Inductive PageBody : Type :=
| ResourceList (items : list ResourceItem)
| Spinner (message : string).

(** [AdditionalPage]: [products] is [None] when the loader data has no
    truthy [products]. *)
Definition AdditionalPage (products : option (list Product)) : PageBody :=
  match products with
  | Some ps => ResourceList (map renderItem ps)
  | None => Spinner "加载商品列表中..."
  end.

End Admin.

(** ** Sample pages and instances *)

Module Sample.

(** The context as [getContext('2d')] first returns it. *)
Definition fresh_ctx : CanvasRenderingContext2D :=
  {| fillStyle := "#000000";
     font := {| font_px := 10; font_face := "sans-serif" |};
     textAlign := "start"; textBaseline := "alphabetic"; surface := [] |}.

Definition settings_of (x y maxw : option float) : CustomizerSettings :=
  {| default_text := Some "Hello"; text_color := None; font_size := None;
     font_family := None; text_pos_x_percent := x; text_pos_y_percent := y;
     image_max_width := maxw |}.

Definition config_of (st : CustomizerSettings) (url : option string)
  : CustomizerInstanceConfig :=
  {| settings := st; imageUrl := url; productId := Some "42" |}.

Definition photo_url : string := "https://cdn.example/p.png".

(** An 800 x 600 image, loaded. *)
Definition photo : HTMLImageElement :=
  {| src := Some photo_url; crossOrigin := Some "anonymous";
     complete := true; naturalWidth := px 800; naturalHeight := px 600;
     fetching := false |}.

(** An image whose load failed. *)
Definition broken_photo : HTMLImageElement := image_broken photo.

Definition instance_of (st : CustomizerSettings) (c : HTMLCanvasElement)
  (i : HTMLImageElement) : Instance :=
  {| blockId := "b1"; config := config_of st (Some photo_url); canvas := c;
     ctx := fresh_ctx;
     textInput := {| value := ""; listeners := [("input", HandleTextInput)] |};
     baseImage := i; currentText := Some "Hello"; console := [] |}.

(** The canvas as the markup [<canvas width="500">] gives it. *)
Definition canvas_500 : HTMLCanvasElement :=
  {| width := px 500; height := px 150; width_attribute := 500 |}.

(** A canvas whose markup carries no [width]: the property reads the
    default 300, [parseFloat] of the missing attribute is [NaN]. *)
Definition canvas_no_width_attribute : HTMLCanvasElement :=
  {| width := px 300; height := px 150; width_attribute := nan |}.

(** The canvas as the markup [<canvas width="300">] gives it. *)
Definition canvas_300 : HTMLCanvasElement :=
  {| width := px 300; height := px 150; width_attribute := 300 |}.


(** A canvas without [width] in the markup, the image being complete. *)
Definition no_width_attribute_instance : Instance :=
  instance_of (settings_of None None (Some 500)) canvas_no_width_attribute
    photo.

Definition max_500_instance : Instance :=
  instance_of (settings_of None None (Some 500)) canvas_500 photo.



Definition max_0_instance : Instance :=
  instance_of (settings_of None None (Some 0)) canvas_500 photo.

(** Text anchored at the top left corner: both percentages are 0. *)
Definition corner_instance : Instance :=
  instance_of (settings_of (Some 0) (Some 0) (Some 500))
    {| width := px 500; height := px 375; width_attribute := 500 |} photo.

Definition failed_instance : Instance :=
  instance_of (settings_of None None (Some 500)) canvas_500 broken_photo.

Definition page : Document :=
  {| canvases :=
       [("customizer-canvas-b1",
         {| canvas_element := canvas_500; getContext_2d := Some fresh_ctx |});
        ("customizer-canvas-b2",
         {| canvas_element := canvas_500; getContext_2d := Some fresh_ctx |})];
     inputs := [("customizer-text-input-b1", "")] |}.

Definition host : Host :=
  {| document := page; available_images := [] |}.

(** The same page when the host has the photo at hand. *)
Definition host_with_photo : Host :=
  {| document := page;
     available_images := [(photo_url, (px 800, px 600))] |}.

Definition config_with_url : CustomizerInstanceConfig :=
  config_of (settings_of None None (Some 500)) (Some photo_url).

Definition config_without_url : CustomizerInstanceConfig :=
  config_of (settings_of None None (Some 500)) (Some "").

(** The photo while the host fetches it. *)
Definition loading_photo : HTMLImageElement :=
  {| src := Some photo_url; crossOrigin := Some "anonymous";
     complete := false; naturalWidth := px 0; naturalHeight := px 0;
     fetching := true |}.

Definition loading_instance : Instance :=
  instance_of (settings_of None None (Some 500)) canvas_500 loading_photo.

(** The same with a gray rectangle already on its canvas and a context
    whose fill style is gray. *)
Definition painted_instance : Instance :=
  fillRect 0 0 500 150 (set_fillStyle "#cccccc" loading_instance).

(** The same after "Jo" was typed. *)
Definition typed_instance : Instance :=
  with_currentText (Some "Jo") (set_input_value "Jo" loading_instance).

(** Settings whose colour and font family are empty and whose font size
    is 0. *)
Definition falsy_style_instance : Instance :=
  instance_of
    {| default_text := Some "Hello"; text_color := Some "";
       font_size := Some 0; font_family := Some "";
       text_pos_x_percent := None; text_pos_y_percent := None;
       image_max_width := Some 500 |}
    canvas_500 photo.

Definition shirt : Admin.Product :=
  {| Admin.id := "gid://shopify/Product/8421";
     Admin.title := "Shirt"; Admin.status := "ACTIVE";
     Admin.totalInventory := 7%Z;
     Admin.priceRangeV2 :=
       Some {| Admin.minVariantPrice :=
                 Some {| Admin.amount := Some "12.50";
                         Admin.currencyCode := "EUR" |} |};
     Admin.images := Some [{| Admin.url := Some photo_url |}] |}.

(** A product whose id is not a global id. *)
Definition draft : Admin.Product :=
  {| Admin.id := "8422"; Admin.title := "Draft"; Admin.status := "DRAFT";
     Admin.totalInventory := 0%Z; Admin.priceRangeV2 := None;
     Admin.images := None |}.

End Sample.

(** ** Facts on numbers *)

Lemma compare_cont_swap (p q : positive) :
  PosDef.Pos.compare_cont Eq q p = CompOpp (PosDef.Pos.compare_cont Eq p q).
Proof. exact (eq_sym (Pos.compare_cont_antisym p q Eq)). Qed.

Lemma SFcompare_Lt_swap (a b : spec_float) :
  SFcompare a b = Some Lt -> SFcompare b a = Some Gt.
Proof.
  destruct a as [sa|sa| |sa ma ea], b as [sb|sb| |sb mb eb]; simpl;
    try destruct sa; try destruct sb; simpl; try congruence;
    rewrite (Z.compare_antisym ea eb);
    destruct (ea ?= eb)%Z eqn:E; simpl; try congruence;
    rewrite (compare_cont_swap ma mb);
    destruct (PosDef.Pos.compare_cont Eq ma mb); simpl; congruence.
Qed.

(** [>] on numbers is asymmetric. *)
Lemma gt_asym (x y : float) : Js.gt x y = true -> Js.gt y x = false.
Proof.
  unfold Js.gt. rewrite !ltb_spec. unfold SFltb.
  destruct (SFcompare (Prim2SF y) (Prim2SF x)) as [[| |]|] eqn:E;
    try discriminate.
  intros _. now rewrite (SFcompare_Lt_swap _ _ E).
Qed.


Lemma leibniz_refl (x : float) : Leibniz.eqb x x = true.
Proof. now apply FloatAxioms.Leibniz.eqb_spec. Qed.


(** Two dimensions that are the same number are the same. *)
Lemma Dimension_eq (a b : Dimension) : number a = number b -> a = b.
Proof.
  destruct a as [x Hx], b as [y Hy]. simpl. intros <-.
  f_equal. apply UIP_dec. apply bool_dec.
Qed.

(** The host's conversion keeps a number that is a dimension. *)
Lemma to_dimension_fixed (d : Dimension) (x : float) :
  is_dimension x = true -> number (to_dimension d x) = x.
Proof.
  intros H. unfold to_dimension.
  assert (E : number_of_Z (ToUint32 x) = x).
  { unfold is_dimension in H. unfold ToUint32.
    destruct (whole_part x) as [z|]; [|discriminate].
    apply andb_true_iff in H. destruct H as [H H3].
    apply andb_true_iff in H. destruct H as [H1 H2].
    apply Z.leb_le in H1, H2.
    rewrite Z.mod_small.
    - now apply FloatAxioms.Leibniz.eqb_spec.
    - split; [assumption|].
      apply Z.le_lt_trans with 2147483647%Z; [assumption|reflexivity]. }
  generalize (@eq_refl bool (is_dimension (number_of_Z (ToUint32 x)))).
  generalize (is_dimension (number_of_Z (ToUint32 x))) at 2 3.
  intros b. destruct b; intros Hb; simpl; [exact E|].
  rewrite E in Hb. congruence.
Qed.

Lemma to_dimension_number (d x : Dimension) : to_dimension d x = x.
Proof.
  apply Dimension_eq. apply to_dimension_fixed. apply number_is_dimension.
Qed.

Lemma whole_canvas_self (c : HTMLCanvasElement) :
  whole_canvas 0 0 (width c) (height c) c = true.
Proof. unfold whole_canvas. now rewrite !leibniz_refl. Qed.

(** ** The renderer *)

Section Renderer.

Variable s : Instance.

Lemma redrawCanvas_guard :
  image_ready (baseImage s) = false -> redrawCanvas s = s.
Proof.
  unfold image_ready, redrawCanvas. intros H.
  destruct (complete (baseImage s)); simpl in *; [|reflexivity].
  apply negb_false_iff in H. now rewrite H.
Qed.

Lemma redrawCanvas_ready :
  image_ready (baseImage s) = true ->
  redrawCanvas s = with_ctx (drawn_ctx s) s.
Proof.
  unfold image_ready, redrawCanvas. intros H.
  apply andb_true_iff in H. destruct H as [Hc Hw].
  apply negb_true_iff in Hw. rewrite Hc, Hw. simpl.
  unfold clearRect. simpl. rewrite whole_canvas_self. reflexivity.
Qed.

(** [redrawCanvas] writes to the context only. *)
Lemma redrawCanvas_frame :
  canvas (redrawCanvas s) = canvas s
  /\ baseImage (redrawCanvas s) = baseImage s
  /\ textInput (redrawCanvas s) = textInput s
  /\ currentText (redrawCanvas s) = currentText s
  /\ config (redrawCanvas s) = config s
  /\ console (redrawCanvas s) = console s
  /\ blockId (redrawCanvas s) = blockId s.
Proof.
  destruct (image_ready (baseImage s)) eqn:R.
  - rewrite (redrawCanvas_ready R). repeat split.
  - rewrite (redrawCanvas_guard R). repeat split.
Qed.

End Renderer.

Lemma redrawCanvas_canvas (s : Instance) : canvas (redrawCanvas s) = canvas s.
Proof. apply redrawCanvas_frame. Qed.

Lemma redrawCanvas_baseImage (s : Instance) :
  baseImage (redrawCanvas s) = baseImage s.
Proof. apply redrawCanvas_frame. Qed.

(** The anchor of the text for percentages that are given and truthy. *)
Lemma redrawCanvas_anchor (s : Instance) (px py : float) :
  image_ready (baseImage s) = true ->
  text_pos_x_percent (settings (config s)) = Some px ->
  text_pos_y_percent (settings (config s)) = Some py ->
  Js.truthy_number px = true -> Js.truthy_number py = true ->
  exists bg style fnt,
    surface (ctx (redrawCanvas s))
    = [bg; PaintText style fnt "center" "middle" (Js.to_string (currentText s))
             ((width (canvas s) * px) / 100)
             ((height (canvas s) * py) / 100)].
Proof.
  intros R Hx Hy Tx Ty. rewrite (redrawCanvas_ready s R).
  unfold drawn_ctx. simpl. rewrite Hx, Hy. simpl. rewrite Tx, Ty.
  eauto.
Qed.

(** The anchor when the percentages are absent: the centre. *)
Lemma redrawCanvas_anchor_default (s : Instance) :
  image_ready (baseImage s) = true ->
  text_pos_x_percent (settings (config s)) = None ->
  text_pos_y_percent (settings (config s)) = None ->
  exists bg style fnt,
    surface (ctx (redrawCanvas s))
    = [bg; PaintText style fnt "center" "middle" (Js.to_string (currentText s))
             ((width (canvas s) * 50) / 100)
             ((height (canvas s) * 50) / 100)].
Proof.
  intros R Hx Hy. rewrite (redrawCanvas_ready s R).
  unfold drawn_ctx. simpl. rewrite Hx, Hy. simpl. eauto.
Qed.

(** C2, at the percentages 0 and 0: the text of [Sample.corner_instance]
    (canvas 500 x 375) is anchored at (250, 187.5), the centre, where
    (500 * 0 / 100, 375 * 0 / 100) = (0, 0) is the point for the position
    0/0: [0 || 50] is 50, a position that is given is replaced by the
    default. *)
Theorem redrawCanvas_percent_zero_is_centred :
  text_pos_x_percent (settings (config Sample.corner_instance)) = Some 0
  /\ text_pos_y_percent (settings (config Sample.corner_instance)) = Some 0
  /\ surface (ctx (redrawCanvas Sample.corner_instance))
     = [PaintImage Sample.photo 0 0 500 375;
        PaintText "#000000" {| font_px := 30; font_face := "Arial" |}
          "center" "middle" "Hello" 250 187.5]
  /\ ((500 * 0) / 100 = 0 /\ (375 * 0) / 100 = 0)
  /\ Leibniz.eqb 250 0 = false.
Proof. repeat split. Qed.

(** C4: [redrawCanvas] is idempotent: drawing a second time, nothing else
    having changed, leaves the instance, its surface included, as the first
    draw left it. *)
Theorem redrawCanvas_idempotent (s : Instance) :
  redrawCanvas (redrawCanvas s) = redrawCanvas s.
Proof.
  destruct (image_ready (baseImage s)) eqn:R.
  - rewrite (redrawCanvas_ready s R).
    rewrite redrawCanvas_ready by exact R.
    reflexivity.
  - now rewrite (redrawCanvas_guard s R), (redrawCanvas_guard s R).
Qed.

(** An [input] event on an input that carries the listener of the
    instance: the handler runs on an event whose target holds what was
    typed. *)
Lemma dispatch_input_event (s : Instance) (v : string) :
  listeners (textInput s) = [("input", HandleTextInput)] ->
  dispatch (InputEvent v) s
  = Some (handleTextInput
            {| target := {| value := v;
                            listeners := [("input", HandleTextInput)] |} |}
            (set_input_value v s)).
Proof. intros L. simpl. rewrite L. reflexivity. Qed.

(** ** Sizing the canvas on the image *)

(** A [load] event runs [onload] on the image with its natural size. *)
Lemma dispatch_load_event (s : Instance) (nw nh : Dimension) :
  fetching (baseImage s) = true ->
  dispatch (LoadEvent nw nh) s
  = Some (onload (with_baseImage (image_loaded nw nh (baseImage s)) s)).
Proof. intros F. simpl. now rewrite F. Qed.

(** The size [onload] gives the canvas, from the width the canvas has. *)
Lemma onload_canvas (s : Instance) :
  let nw := naturalWidth (baseImage s) in
  let w :=
    if Js.is_zero (image_max_width (settings (config s)))
       || Js.gt (width (canvas s)) nw
    then nw else width (canvas s) in
  canvas (onload s)
  = {| width := w;
       height :=
         to_dimension default_height (w * (naturalHeight (baseImage s) / nw));
       width_attribute := w |}.
Proof.
  intros nw w. unfold onload. rewrite redrawCanvas_canvas.
  subst w. fold nw.
  destruct (Js.is_zero (image_max_width (settings (config s)))
            || Js.gt (width (canvas s)) nw);
    destruct ((value (textInput _) =? "")%string && _); simpl;
    rewrite to_dimension_number; reflexivity.
Qed.




(** C3: when [image_max_width] is 0, [onload] makes the canvas as wide as
    the image is naturally, whatever width the canvas had. *)
Theorem onload_max_zero_natural_width (s : Instance) :
  Js.is_zero (image_max_width (settings (config s))) = true ->
  width (canvas (onload s)) = naturalWidth (baseImage s).
Proof.
  intros Hz. rewrite onload_canvas. simpl. now rewrite Hz.
Qed.

Lemma onload_max_zero_natural_width_witness :
  image_max_width (settings (config Sample.max_0_instance)) = Some 0
  /\ number (width (canvas Sample.max_0_instance)) = 500
  /\ number (width (canvas (onload Sample.max_0_instance))) = 800.
Proof.
  split; [reflexivity|]. split; [reflexivity|].
  rewrite (onload_max_zero_natural_width Sample.max_0_instance eq_refl).
  reflexivity.
Defined.

(** ** The branch for an image that is complete at bind time *)

(** C9, on a canvas whose markup gives no [width]: the property
    [canvas.width] reads the default 300 and [parseFloat] of the missing
    attribute is [NaN].  For a complete 800 x 600 image [onload] sizes the
    canvas 300 x 225; the branch, which is to replay the logic of [onload],
    assigns [NaN] to both sizes and leaves the canvas 0 x 0. *)
Theorem alreadyCompleteBranch_differs_from_onload :
  complete (baseImage Sample.no_width_attribute_instance) = true
  /\ Js.gt (naturalWidth (baseImage Sample.no_width_attribute_instance)) 0
     = true
  /\ canvas (onload Sample.no_width_attribute_instance)
     = {| width := px 300; height := px 225; width_attribute := 300 |}
  /\ canvas (alreadyCompleteBranch Sample.no_width_attribute_instance)
     = {| width := px 0; height := px 0; width_attribute := 0 |}
  /\ drawn_text
       (surface (ctx (onload Sample.no_width_attribute_instance)))
     = Some "Hello"
  /\ alreadyCompleteBranch Sample.no_width_attribute_instance
     <> onload Sample.no_width_attribute_instance.
Proof.
  repeat split. intros E.
  apply (f_equal (fun i => Leibniz.eqb (width (canvas i)) 300)) in E.
  vm_compute in E. discriminate.
Qed.

(** Where the two agree: for an image that is complete with a positive
    natural width, the branch and [onload] leave the same instance (canvas
    size, text input, current text, drawing) whenever the parsed [width]
    attribute of the canvas is the width the canvas has, or
    [image_max_width] is 0. *)
Lemma alreadyCompleteBranch_is_onload (s : Instance) :
  complete (baseImage s) = true ->
  Js.gt (naturalWidth (baseImage s)) 0 = true ->
  width_attribute (canvas s) = number (width (canvas s))
  \/ Js.is_zero (image_max_width (settings (config s))) = true ->
  alreadyCompleteBranch s = onload s.
Proof.
  intros Hc Hn H. unfold alreadyCompleteBranch, onload.
  rewrite Hc, Hn. simpl.
  destruct H as [H|H]; rewrite H; reflexivity.
Qed.

(** Initialisation when the host has the image at hand: the branch sizes
    the canvas 500 x 375, fills the empty input with the default text and
    draws; the [load] event is still to come. *)
Example init_with_available_image :
  exists s,
    initializeProductCustomizer Sample.host_with_photo "b1"
      Sample.config_with_url = Bound s
    /\ canvas s
       = {| width := px 500; height := px 375; width_attribute := 500 |}
    /\ value (textInput s) = "Hello"
    /\ listeners (textInput s) = [("input", HandleTextInput)]
    /\ drawn_text (surface (ctx s)) = Some "Hello"
    /\ phase s = Ready
    /\ fetching (baseImage s) = true.
Proof. eexists. repeat split. Qed.

(** ** Failures *)

(** C7: [onerror] fills the rectangle of the whole canvas with [#cccccc],
    then paints the text "图片加载失败", aligned on its centre, in black at
    (width / 2, height / 2); it logs the URL that failed. *)
Theorem onerror_paints_failure (s : Instance) :
  let w := width (canvas s) in
  let h := height (canvas s) in
  surface (ctx (onerror s))
  = (surface (ctx s)
     ++ [PaintRect "#cccccc" 0 0 w h;
         PaintText "#000000" (font (ctx s)) "center" (textBaseline (ctx s))
           "图片加载失败" (w / 2) (h / 2)])%list
  /\ whole_canvas 0 0 w h (canvas s) = true
  /\ canvas (onerror s) = canvas s
  /\ console (onerror s)
     = (console s
        ++ [("[Customizer " ++ blockId s ++ "]：无法加载图片: "
             ++ Js.to_string (imageUrl (config s)))%string])%list.
Proof.
  intros w h. unfold onerror, fillText, fillRect. simpl.
  rewrite <- app_assoc. simpl. repeat split.
  apply whole_canvas_self.
Qed.

(** The instance that initialisation binds when the image URL is falsy. *)
Lemma init_without_url (h : Host) (blockId : string)
  (config : CustomizerInstanceConfig) (s : Instance) :
  Js.truthy Js.truthy_string (imageUrl config) = false ->
  initializeProductCustomizer h blockId config = Bound s ->
  exists node input cx,
    getCanvasById (document h) ("customizer-canvas-" ++ blockId) = Some node
    /\ getInputById (document h) ("customizer-text-input-" ++ blockId)
       = Some input
    /\ getContext_2d node = Some cx
    /\ canvas s = canvas_element node
    /\ textInput s = input
    /\ baseImage s = set_crossOrigin "anonymous" new_Image
    /\ console s
       = ["[Customizer " ++ blockId ++ "]：图片 URL (imageUrl) 未提供。"]
    /\ ctx s
       = {| fillStyle := "#000000"; font := font cx; textAlign := "center";
            textBaseline := textBaseline cx;
            surface :=
              surface cx
              ++ [PaintRect "#cccccc" 0 0 (width (canvas_element node))
                    (height (canvas_element node));
                  PaintText "#000000" (font cx) "center" (textBaseline cx)
                    "未找到图片URL" (width (canvas_element node) / 2)
                    (height (canvas_element node) / 2)] |}.
Proof.
  intros Hurl. unfold initializeProductCustomizer.
  destruct (getCanvasById _ _) as [node|]; [|discriminate].
  destruct (getInputById _ _) as [input|]; [|discriminate].
  destruct (getContext_2d node) as [cx|] eqn:Hcx; [|discriminate].
  rewrite Hurl. intros E. injection E as <-.
  exists node, input, cx. unfold fillText, fillRect. simpl.
  rewrite <- app_assoc. simpl. repeat split. exact Hcx.
Qed.

(** C8 as stated fails: on a page that has the canvas of block [b2] but not
    its text input, initialisation with an empty image URL returns from its
    first guard: it logs the missing element and paints nothing. *)
Lemma init_without_url_may_paint_nothing :
  Js.truthy Js.truthy_string (imageUrl Sample.config_without_url) = false
  /\ getCanvasById (document Sample.host) "customizer-canvas-b2"
     = Some {| canvas_element := Sample.canvas_500;
               getContext_2d := Some Sample.fresh_ctx |}
  /\ initializeProductCustomizer Sample.host "b2" Sample.config_without_url
     = Aborted ["[Customizer b2]：Canvas 或输入框未在 DOM 中找到。"]
  /\ placeholder_painted
       (initializeProductCustomizer Sample.host "b2"
          Sample.config_without_url) = false.
Proof. repeat split. Qed.

(** C8, as the code has it: when the canvas and the text input of the block
    are on the page and the canvas gives a 2D context, initialisation with
    an empty image URL logs the error, paints the gray rectangle and the
    text "未找到图片URL" on the canvas and returns: no source is assigned
    to the image, no load is under way, no background image is painted and
    no listener is attached. *)
Theorem init_without_url_paints_placeholder (h : Host) (blockId : string)
  (config : CustomizerInstanceConfig) (node : CanvasNode)
  (input : HTMLInputElement) (cx : CanvasRenderingContext2D) :
  getCanvasById (document h) ("customizer-canvas-" ++ blockId) = Some node ->
  getInputById (document h) ("customizer-text-input-" ++ blockId)
  = Some input ->
  getContext_2d node = Some cx ->
  Js.truthy Js.truthy_string (imageUrl config) = false ->
  exists s,
    initializeProductCustomizer h blockId config = Bound s
    /\ console s
       = ["[Customizer " ++ blockId ++ "]：图片 URL (imageUrl) 未提供。"]
    /\ surface (ctx s)
       = (surface cx
          ++ [PaintRect "#cccccc" 0 0 (width (canvas_element node))
                (height (canvas_element node));
              PaintText "#000000" (font cx) "center" (textBaseline cx)
                "未找到图片URL" (width (canvas_element node) / 2)
                (height (canvas_element node) / 2)])%list
    /\ placeholder_painted (Bound s) = true
    /\ existsb is_background (surface (ctx s))
       = existsb is_background (surface cx)
    /\ src (baseImage s) = None
    /\ fetching (baseImage s) = false
    /\ listeners (textInput s) = [].
Proof.
  intros Hc Hi Hcx Hurl.
  destruct (initializeProductCustomizer h blockId config) as [log|s] eqn:E.
  - unfold initializeProductCustomizer in E.
    rewrite Hc, Hi, Hcx, Hurl in E. discriminate.
  - exists s. split; [reflexivity|].
    destruct (init_without_url h blockId config s Hurl E)
      as (node' & input' & cx' & Hc' & Hi' & Hcx' & Hcv & Hti & Hbi & Hlog & Hctx).
    rewrite Hc in Hc'. injection Hc' as <-.
    rewrite Hcx in Hcx'. injection Hcx' as <-.
    rewrite Hi in Hi'. injection Hi' as <-.
    simpl. rewrite Hctx, Hbi, Hlog, Hti. simpl.
    repeat split.
    + rewrite existsb_app. simpl. apply orb_true_r.
    + rewrite existsb_app. simpl. apply orb_false_r.
    + unfold getInputById in Hi. destruct (lookup _ _); [|discriminate].
      now injection Hi as <-.
Qed.

Lemma init_without_url_paints_placeholder_witness :
  Js.truthy Js.truthy_string (imageUrl Sample.config_without_url) = false
  /\ exists s,
       initializeProductCustomizer Sample.host "b1" Sample.config_without_url
       = Bound s
       /\ console s = ["[Customizer b1]：图片 URL (imageUrl) 未提供。"]
       /\ surface (ctx s)
          = [PaintRect "#cccccc" 0 0 500 150;
             PaintText "#000000" {| font_px := 10; font_face := "sans-serif" |}
               "center" "alphabetic" "未找到图片URL" (500 / 2) (150 / 2)]
       /\ placeholder_painted (Bound s) = true
       /\ existsb is_background (surface (ctx s)) = false
       /\ src (baseImage s) = None
       /\ fetching (baseImage s) = false
       /\ listeners (textInput s) = [].
Proof.
  split; [reflexivity|].
  apply (init_without_url_paints_placeholder Sample.host "b1"
           Sample.config_without_url
           {| canvas_element := Sample.canvas_500;
              getContext_2d := Some Sample.fresh_ctx |}
           {| value := ""; listeners := [] |} Sample.fresh_ctx);
    reflexivity.
Defined.

(** ** The life cycle under events *)

Lemma phase_error_state (s : Instance) :
  phase s = ErrorState
  <-> image_ready (baseImage s) = false /\ fetching (baseImage s) = false.
Proof.
  unfold phase.
  destruct (image_ready (baseImage s)), (fetching (baseImage s));
    split; intros H; try discriminate; try (destruct H; discriminate); auto.
Qed.

Lemma handleTextInput_not_ready (event : InputEventObject) (s : Instance) :
  image_ready (baseImage s) = false ->
  handleTextInput event s = with_currentText (Some (value (target event))) s.
Proof.
  intros R. unfold handleTextInput. now rewrite redrawCanvas_guard.
Qed.

(** While the image cannot be drawn, listeners touch the current text
    only. *)
Lemma call_listeners_not_ready (type : string) (event : InputEventObject)
  (fs : list (string * Listener)) :
  forall s : Instance,
    image_ready (baseImage s) = false ->
    baseImage (call_listeners type fs event s) = baseImage s
    /\ ctx (call_listeners type fs event s) = ctx s
    /\ canvas (call_listeners type fs event s) = canvas s.
Proof.
  induction fs as [|[t f] fs IH]; intros s R; simpl; [auto|].
  destruct (t =? type)%string; [|now apply IH].
  destruct f. simpl. rewrite (handleTextInput_not_ready event s R).
  exact (IH (with_currentText (Some (value (target event))) s) R).
Qed.

(** [ErrorState] is absorbing, and no event paints in it. *)
Lemma dispatch_error_state (e : Event) (s s' : Instance) :
  phase s = ErrorState -> dispatch e s = Some s' ->
  phase s' = ErrorState /\ ctx s' = ctx s /\ canvas s' = canvas s.
Proof.
  intros P. apply phase_error_state in P. destruct P as [R F].
  destruct e as [nw nh| |v]; simpl; try (rewrite F; discriminate).
  intros E. injection E as <-.
  destruct (call_listeners_not_ready "input"
              {| target := textInput (set_input_value v s) |}
              (listeners (textInput (set_input_value v s)))
              (set_input_value v s) R) as (Hb & Hc & Hv).
  simpl in Hb, Hc, Hv.
  split; [|split; assumption].
  apply phase_error_state. rewrite Hb. now split.
Qed.

Lemma run_error_state (es : list Event) :
  forall s s' : Instance,
    phase s = ErrorState -> run es s = Some s' ->
    phase s' = ErrorState /\ ctx s' = ctx s /\ canvas s' = canvas s.
Proof.
  induction es as [|e es IH]; intros s s' P; simpl.
  - intros E. injection E as <-. auto.
  - destruct (dispatch e s) as [s1|] eqn:D; [|discriminate].
    destruct (dispatch_error_state e s s1 P D) as (P1 & C1 & V1).
    intros E. destruct (IH s1 s' P1 E) as (P2 & C2 & V2).
    repeat split; congruence.
Qed.

(** Typing is always possible. *)
Lemma run_inputs_total (vs : list string) :
  forall s : Instance, exists s', run (map InputEvent vs) s = Some s'.
Proof.
  induction vs as [|v vs IH]; intros s; simpl; eauto.
Qed.

(** A failed load ends in [ErrorState]. *)
Lemma dispatch_error_event (s s' : Instance) :
  dispatch ErrorEvent s = Some s' -> phase s' = ErrorState.
Proof.
  simpl. destruct (fetching (baseImage s)); [|discriminate].
  intros E. injection E as <-. reflexivity.
Qed.

(** So does an initialisation without image URL. *)
Lemma init_without_url_error_state (h : Host) (blockId : string)
  (config : CustomizerInstanceConfig) (s : Instance) :
  Js.truthy Js.truthy_string (imageUrl config) = false ->
  initializeProductCustomizer h blockId config = Bound s ->
  phase s = ErrorState.
Proof.
  intros Hurl E.
  destruct (init_without_url h blockId config s Hurl E)
    as (_ & _ & _ & _ & _ & _ & _ & _ & Hb & _).
  unfold phase. now rewrite Hb.
Qed.

(** C6: when the image is not complete or its natural width is 0,
    [redrawCanvas] returns the instance as it got it: nothing is drawn.
    Hence from [ErrorState] (no image to wait for, none that can be drawn)
    every run of events ends in [ErrorState] with the surface as it was: no
    background image is painted again. *)
Theorem redrawCanvas_guard_error_state (s : Instance) :
  complete (baseImage s) = false
  \/ Js.strict_eq (naturalWidth (baseImage s)) 0 = true ->
  redrawCanvas s = s
  /\ (phase s = ErrorState ->
      forall (es : list Event) (s' : Instance),
        run es s = Some s' ->
        phase s' = ErrorState /\ surface (ctx s') = surface (ctx s)).
Proof.
  intros G. split.
  - apply redrawCanvas_guard. unfold image_ready.
    destruct G as [G|G]; rewrite G; [reflexivity|apply andb_false_r].
  - intros P es s' E.
    destruct (run_error_state es s s' P E) as (P' & C' & _).
    now rewrite C'.
Qed.

Lemma redrawCanvas_guard_error_state_witness :
  Js.strict_eq (naturalWidth (baseImage Sample.failed_instance)) 0 = true
  /\ redrawCanvas Sample.failed_instance = Sample.failed_instance
  /\ exists s',
       run [InputEvent "a"; InputEvent "ab"] Sample.failed_instance = Some s'
       /\ currentText s' = Some "ab"
       /\ phase s' = ErrorState
       /\ surface (ctx s') = surface (ctx Sample.failed_instance).
Proof.
  split; [reflexivity|].
  destruct (redrawCanvas_guard_error_state Sample.failed_instance
              (or_intror eq_refl)) as [H1 H2].
  split; [exact H1|].
  eexists. split; [reflexivity|]. split; [reflexivity|].
  apply (H2 eq_refl [InputEvent "a"; InputEvent "ab"]). reflexivity.
Defined.

(** ** An instance without image URL *)

(** Without a listener, typing changes the value of the input only. *)
Lemma run_inputs_unheard (vs : list string) :
  forall s : Instance,
    listeners (textInput s) = [] ->
    exists s',
      run (map InputEvent vs) s = Some s'
      /\ currentText s' = currentText s
      /\ ctx s' = ctx s
      /\ canvas s' = canvas s
      /\ baseImage s' = baseImage s.
Proof.
  induction vs as [|v vs IH]; intros s L; simpl.
  - exists s. auto.
  - rewrite L. simpl.
    destruct (IH (set_input_value v s) L) as (s' & E & H1 & H2 & H3 & H4).
    exists s'. auto.
Qed.

(** C10: when the image URL is empty, the instance that initialisation
    leaves has no listener on its text input; whatever is typed afterwards,
    the current text and the surface stay as initialisation left them, the
    placeholder included. *)
Theorem init_without_url_ignores_input (h : Host) (blockId : string)
  (config : CustomizerInstanceConfig) (s : Instance) :
  Js.truthy Js.truthy_string (imageUrl config) = false ->
  initializeProductCustomizer h blockId config = Bound s ->
  listeners (textInput s) = []
  /\ forall vs : list string,
       exists s',
         run (map InputEvent vs) s = Some s'
         /\ currentText s' = currentText s
         /\ surface (ctx s') = surface (ctx s)
         /\ placeholder_painted (Bound s') = true.
Proof.
  intros Hurl E.
  destruct (init_without_url h blockId config s Hurl E)
    as (node & input & cx & _ & Hi & _ & _ & Hti & _ & _ & Hctx).
  assert (L : listeners (textInput s) = []).
  { rewrite Hti. unfold getInputById in Hi.
    destruct (lookup _ _); [|discriminate]. now injection Hi as <-. }
  split; [exact L|]. intros vs.
  destruct (run_inputs_unheard vs s L) as (s' & R & H1 & H2 & _).
  exists s'. repeat split; try assumption; try congruence.
  simpl. rewrite H2, Hctx. simpl.
  rewrite existsb_app. simpl. apply orb_true_r.
Qed.

Lemma init_without_url_ignores_input_witness :
  exists s s',
    initializeProductCustomizer Sample.host "b1" Sample.config_without_url
    = Bound s
    /\ run [InputEvent "J"; InputEvent "Jo"] s = Some s'
    /\ value (textInput s') = "Jo"
    /\ currentText s' = currentText s
    /\ surface (ctx s') = surface (ctx s)
    /\ placeholder_painted (Bound s') = true.
Proof.
  eexists.
  destruct (init_without_url_ignores_input Sample.host "b1"
              Sample.config_without_url _ eq_refl eq_refl) as [_ H].
  destruct (H ["J"; "Jo"]) as (s' & R & H1 & H2 & H3).
  exists s'. split; [reflexivity|]. split; [exact R|].
  split; [|auto].
  vm_compute in R. injection R as <-. reflexivity.
Defined.

(** ** Frames of the handlers *)

Lemma gt_irrefl (x : float) : Js.gt x x = false.
Proof.
  destruct (Js.gt x x) eqn:E; [|reflexivity].
  now rewrite (gt_asym x x E) in E.
Qed.

Lemma or_else_falsy {A : Type} (t : A -> bool) (x : option A) (d : A) :
  Js.truthy t x = false -> Js.or_else t x d = d.
Proof. destruct x as [v|]; simpl; [intros ->|]; reflexivity. Qed.

Lemma with_ctx_self (s : Instance) : with_ctx (ctx s) s = s.
Proof. now destruct s. Qed.

(** [onload] leaves the image, the configuration, the console and the
    listeners alone. *)
Lemma onload_frame (s : Instance) :
  baseImage (onload s) = baseImage s
  /\ config (onload s) = config s
  /\ console (onload s) = console s
  /\ blockId (onload s) = blockId s
  /\ listeners (textInput (onload s)) = listeners (textInput s).
Proof.
  unfold onload.
  match goal with |- context [redrawCanvas ?t] =>
    destruct (redrawCanvas_frame t) as (_ & Hb & Ht & _ & Hc & Hl & Hk);
    rewrite Hb, Ht, Hc, Hl, Hk
  end.
  destruct ((value (textInput _) =? "")%string && _); repeat split.
Qed.

Lemma alreadyCompleteBranch_frame (s : Instance) :
  baseImage (alreadyCompleteBranch s) = baseImage s
  /\ config (alreadyCompleteBranch s) = config s
  /\ console (alreadyCompleteBranch s) = console s
  /\ blockId (alreadyCompleteBranch s) = blockId s
  /\ listeners (textInput (alreadyCompleteBranch s)) = listeners (textInput s).
Proof.
  unfold alreadyCompleteBranch.
  destruct (complete (baseImage s) && _); [|repeat split].
  match goal with |- context [redrawCanvas ?t] =>
    destruct (redrawCanvas_frame t) as (_ & Hb & Ht & _ & Hc & Hl & Hk);
    rewrite Hb, Ht, Hc, Hl, Hk
  end.
  destruct ((value (textInput _) =? "")%string && _); repeat split.
Qed.

(** Listeners write the current text and the context only. *)
Lemma call_listeners_frame (type : string) (event : InputEventObject)
  (fs : list (string * Listener)) :
  forall s : Instance,
    canvas (call_listeners type fs event s) = canvas s
    /\ textInput (call_listeners type fs event s) = textInput s
    /\ baseImage (call_listeners type fs event s) = baseImage s
    /\ config (call_listeners type fs event s) = config s
    /\ console (call_listeners type fs event s) = console s
    /\ blockId (call_listeners type fs event s) = blockId s.
Proof.
  induction fs as [|[t f] fs IH]; intros s; simpl; [repeat split|].
  destruct (t =? type)%string; [|apply IH].
  destruct f. simpl. unfold handleTextInput.
  destruct (IH (redrawCanvas
                  (with_currentText (Some (value (target event))) s)))
    as (H1 & H2 & H3 & H4 & H5 & H6).
  destruct (redrawCanvas_frame
              (with_currentText (Some (value (target event))) s))
    as (G1 & G2 & G3 & _ & G4 & G5 & G6).
  rewrite H1, H2, H3, H4, H5, H6, G1, G2, G3, G4, G5, G6.
  repeat split.
Qed.

(** ** More on [onload] *)

Lemma onload_closed_form (s : Instance) :
  onload s = redrawCanvas (sized_and_synced s).
Proof.
  unfold onload, sized_and_synced.
  destruct ((value (textInput s) =? "")%string && _) eqn:F; simpl;
    rewrite F; reflexivity.
Qed.

(** Sizing and synchronising a second time changes nothing. *)
Lemma sized_and_synced_stable (s : Instance) (c : CanvasRenderingContext2D) :
  sized_and_synced (with_ctx c (sized_and_synced s)) = sized_and_synced s.
Proof.
  unfold sized_and_synced, with_ctx. simpl.
  set (nw := naturalWidth (baseImage s)).
  set (z := Js.is_zero (image_max_width (settings (config s)))).
  assert (W : exists w : Dimension,
             (if z || Js.gt (width (canvas s)) nw
              then number nw else number (width (canvas s))) = number w
             /\ (if z || Js.gt w nw then number nw else number w)
                = number w).
  { destruct z; simpl.
    - exists (naturalWidth (baseImage s)). auto.
    - destruct (Js.gt (width (canvas s)) nw) eqn:G.
      + exists (naturalWidth (baseImage s)). fold nw.
        rewrite gt_irrefl. auto.
      + exists (width (canvas s)). rewrite G. auto. }
  destruct W as (w & W1 & W2). rewrite W1.
  rewrite !to_dimension_number. rewrite W2.
  rewrite !to_dimension_number.
  destruct (default_text (settings (config s))) as [d|] eqn:D; simpl.
  - destruct (value (textInput s) =? "")%string eqn:V; simpl.
    + destruct (Js.truthy_string d) eqn:T; simpl.
      * unfold Js.truthy_string in T. apply negb_true_iff in T.
        rewrite T. simpl. reflexivity.
      * rewrite V. simpl. reflexivity.
    + rewrite V. simpl. reflexivity.
  - rewrite !andb_false_r. reflexivity.
Qed.

Lemma onload_text (s : Instance) :
  let fill :=
    (value (textInput s) =? "")%string
    && Js.truthy Js.truthy_string (default_text (settings (config s))) in
  currentText (onload s) = Some (value (textInput (onload s)))
  /\ value (textInput (onload s))
     = (if fill then Js.to_string (default_text (settings (config s)))
        else value (textInput s)).
Proof.
  intros fill. rewrite onload_closed_form.
  destruct (redrawCanvas_frame (sized_and_synced s))
    as (_ & _ & Ht & Hc & _).
  rewrite Ht, Hc. unfold sized_and_synced. simpl. fold fill.
  destruct fill eqn:F; [|split; reflexivity].
  destruct (default_text (settings (config s))) as [x|];
    [split; reflexivity|].
  subst fill. now rewrite andb_false_r in F.
Qed.

Lemma onload_ready (s : Instance) :
  image_ready (baseImage s) = true ->
  ctx (onload s) = drawn_ctx (sized_and_synced s).
Proof.
  intros R. rewrite onload_closed_form.
  rewrite redrawCanvas_ready by exact R. reflexivity.
Qed.

Lemma drawn_ctx_surface (s : Instance) :
  drawn_text (surface (drawn_ctx s)) = Some (Js.to_string (currentText s))
  /\ List.length (surface (drawn_ctx s)) = 2%nat
  /\ existsb is_background (surface (drawn_ctx s)) = true.
Proof. repeat split. Qed.

Lemma onload_drawn_text (s : Instance) :
  image_ready (baseImage s) = true ->
  drawn_text (surface (ctx (onload s)))
  = Some (value (textInput (onload s))).
Proof.
  intros R. destruct (onload_text s) as [Hc _].
  assert (C : currentText (sized_and_synced s)
              = Some (value (textInput (onload s)))).
  { rewrite <- Hc. rewrite onload_closed_form.
    symmetry. apply redrawCanvas_frame. }
  rewrite (onload_ready s R).
  destruct (drawn_ctx_surface (sized_and_synced s)) as (D & _).
  now rewrite D, C.
Qed.

(** ** Typing, and the draw that follows *)

(** C5, as the code has it: [handleTextInput] on an event whose target
    holds [v] stores [v] as the current text and calls the renderer at
    once.  When the image can be drawn, the text painted by that call is
    [v], at the anchor.  Otherwise nothing is painted, and the draw that
    the load of the image then makes paints [v], unless [v] is empty and
    the settings have a non-empty default text: then it paints the default
    text. *)
Theorem handleTextInput_draws_value (s : Instance) (event : InputEventObject) :
  let v := value (target event) in
  let st := settings (config s) in
  handleTextInput event s = redrawCanvas (with_currentText (Some v) s)
  /\ currentText (handleTextInput event s) = Some v
  /\ (if image_ready (baseImage s)
      then
        surface (ctx (handleTextInput event s))
        = [PaintImage (baseImage s) 0 0 (width (canvas s)) (height (canvas s));
           PaintText (Js.or_else Js.truthy_string (text_color st) "#000000")
             {| font_px := Js.or_else Js.truthy_number (font_size st) 30;
                font_face :=
                  Js.or_else Js.truthy_string (font_family st) "Arial" |}
             "center" "middle" v
             ((width (canvas s)
               * Js.or_else Js.truthy_number (text_pos_x_percent st) 50) / 100)
             ((height (canvas s)
               * Js.or_else Js.truthy_number (text_pos_y_percent st) 50) / 100)]
      else ctx (handleTextInput event s) = ctx s)
  /\ (forall nw nh : Dimension,
        value (textInput s) = v ->
        Js.strict_eq nw 0 = false ->
        drawn_text
          (surface
             (ctx (onload
                     (with_baseImage (image_loaded nw nh (baseImage s))
                        (handleTextInput event s)))))
        = Some (if (v =? "")%string
                   && Js.truthy Js.truthy_string (default_text st)
                then Js.to_string (default_text st) else v)).
Proof.
  intros v st. unfold handleTextInput. fold v.
  destruct (redrawCanvas_frame (with_currentText (Some v) s))
    as (_ & _ & Ht & Hc & Hk & _).
  split; [reflexivity|]. split; [exact Hc|]. split.
  - destruct (image_ready (baseImage s)) eqn:R.
    + rewrite redrawCanvas_ready by exact R. reflexivity.
    + rewrite redrawCanvas_guard by exact R. reflexivity.
  - intros nw nh V Z.
    set (u := with_baseImage (image_loaded nw nh (baseImage s))
                (redrawCanvas (with_currentText (Some v) s))).
    assert (R : image_ready (baseImage u) = true).
    { unfold image_ready. simpl. now rewrite Z. }
    rewrite (onload_drawn_text u R).
    destruct (onload_text u) as [_ Hv]. rewrite Hv.
    unfold u. simpl. rewrite Ht, Hk. simpl. fold st. now rewrite V.
Qed.

(** C5 as stated fails: while the image is fetched, the user empties an
    input that held "Jo".  The handler stores the empty text and draws
    nothing; the draw that comes next, the one [onload] makes, paints the
    default text "Hello", which [onload] also writes into the input. *)
Lemma input_then_load_draws_default_text :
  exists s1 s2,
    dispatch (InputEvent "") Sample.typed_instance = Some s1
    /\ currentText s1 = Some ""
    /\ ctx s1 = ctx Sample.typed_instance
    /\ dispatch (LoadEvent (px 800) (px 600)) s1 = Some s2
    /\ drawn_text (surface (ctx s2)) = Some "Hello"
    /\ value (textInput s2) = "Hello".
Proof. do 2 eexists. repeat split. Qed.

(** X5: after [onload] the canvas is never wider than the image is
    naturally: its width is the width it had, or the natural width when
    that is smaller or [image_max_width] is 0. *)
Theorem onload_width_bounded (s : Instance) :
  Js.gt (width (canvas (onload s))) (naturalWidth (baseImage s)) = false
  /\ (width (canvas (onload s)) = width (canvas s)
      \/ width (canvas (onload s)) = naturalWidth (baseImage s)).
Proof.
  rewrite onload_canvas. simpl.
  destruct (Js.is_zero _); simpl.
  - split; [apply gt_irrefl|now right].
  - destruct (Js.gt (width (canvas s)) _) eqn:G.
    + split; [apply gt_irrefl|now right].
    + split; [exact G|now left].
Qed.

(** X6: after [onload] the current text is what the text input holds: the
    default text, written into an input that was empty, when the settings
    have a non-empty one; otherwise what the input held. *)
Theorem onload_synchronises_text (s : Instance) :
  let d := default_text (settings (config s)) in
  let v := value (textInput s) in
  currentText (onload s) = Some (value (textInput (onload s)))
  /\ value (textInput (onload s))
     = (if (v =? "")%string && Js.truthy Js.truthy_string d
        then Js.to_string d else v).
Proof. intros d v. apply onload_text. Qed.

(** X7: [onload] is idempotent: run again on the instance it left, it
    resizes nothing, rewrites no text and repaints the same picture. *)
Theorem onload_idempotent (s : Instance) : onload (onload s) = onload s.
Proof.
  rewrite !onload_closed_form.
  destruct (image_ready (baseImage (sized_and_synced s))) eqn:R.
  - rewrite (redrawCanvas_ready (sized_and_synced s) R).
    rewrite sized_and_synced_stable.
    rewrite redrawCanvas_ready by exact R. reflexivity.
  - rewrite (redrawCanvas_guard (sized_and_synced s) R).
    pose proof (sized_and_synced_stable s (ctx (sized_and_synced s))) as E.
    rewrite with_ctx_self in E. rewrite E.
    now apply redrawCanvas_guard.
Qed.

(** X8: a [load] event that brings an image of non-zero natural width makes
    the instance [Ready] and leaves on the canvas exactly two paints, the
    background image and the text that the input then holds. *)
Theorem load_event_draws_input_text (s : Instance) (nw nh : Dimension) :
  fetching (baseImage s) = true ->
  Js.strict_eq nw 0 = false ->
  exists s',
    dispatch (LoadEvent nw nh) s = Some s'
    /\ phase s' = Ready
    /\ drawn_text (surface (ctx s')) = Some (value (textInput s'))
    /\ List.length (surface (ctx s')) = 2%nat
    /\ existsb is_background (surface (ctx s')) = true.
Proof.
  intros F Z. simpl. rewrite F. eexists. split; [reflexivity|].
  set (t := with_baseImage (image_loaded nw nh (baseImage s)) s).
  assert (R : image_ready (baseImage t) = true).
  { unfold image_ready. simpl. now rewrite Z. }
  destruct (onload_text t) as [Hc Hv].
  destruct (onload_frame t) as (Hb & _).
  split.
  - unfold phase. now rewrite Hb, R.
  - assert (C : currentText (sized_and_synced t)
                = Some (value (textInput (onload t)))).
    { rewrite <- Hc. rewrite onload_closed_form.
      symmetry. apply redrawCanvas_frame. }
    rewrite (onload_ready t R).
    destruct (drawn_ctx_surface (sized_and_synced t)) as (D1 & D2 & D3).
    rewrite D1, D2, D3, C. auto.
Qed.

Lemma load_event_draws_input_text_witness :
  exists s',
    dispatch (LoadEvent (px 800) (px 600)) Sample.typed_instance = Some s'
    /\ phase s' = Ready
    /\ drawn_text (surface (ctx s')) = Some (value (textInput s'))
    /\ List.length (surface (ctx s')) = 2%nat
    /\ existsb is_background (surface (ctx s')) = true.
Proof.
  apply (load_event_draws_input_text Sample.typed_instance (px 800)
           (px 600)); reflexivity.
Defined.

(** X9: a [load] event for an image of natural width 0 paints nothing:
    sizing the canvas clears it and resets its context, the guard of
    [redrawCanvas] stops the draw, and the instance is in [ErrorState] with
    an empty surface and the context in its default state. *)
Theorem load_event_without_width_draws_nothing (s : Instance)
  (nw nh : Dimension) :
  fetching (baseImage s) = true ->
  Js.strict_eq nw 0 = true ->
  exists s',
    dispatch (LoadEvent nw nh) s = Some s'
    /\ ctx s' = default_ctx
    /\ surface (ctx s') = []
    /\ phase s' = ErrorState.
Proof.
  intros F Z. simpl. rewrite F. eexists. split; [reflexivity|].
  set (t := with_baseImage (image_loaded nw nh (baseImage s)) s).
  assert (R : image_ready (baseImage t) = false).
  { unfold image_ready. simpl. now rewrite Z. }
  destruct (onload_frame t) as (Hb & _).
  assert (C : ctx (onload t) = default_ctx).
  { rewrite onload_closed_form. now rewrite redrawCanvas_guard. }
  split; [exact C|]. split; [now rewrite C|].
  unfold phase. rewrite Hb, R. reflexivity.
Qed.

Lemma load_event_without_width_draws_nothing_witness :
  exists s',
    dispatch (LoadEvent (px 0) (px 150)) Sample.painted_instance
    = Some s'
    /\ surface (ctx Sample.painted_instance)
       = [PaintRect "#cccccc" 0 0 500 150]
    /\ ctx s' = default_ctx
    /\ surface (ctx s') = []
    /\ phase s' = ErrorState.
Proof.
  destruct (load_event_without_width_draws_nothing
              Sample.painted_instance (px 0) (px 150)
              eq_refl eq_refl) as (s' & D & C & S & P).
  exists s'. repeat split; assumption.
Defined.

(** X10: an [error] event while the image is fetched puts the instance in
    [ErrorState] with the failure text as the last paint; canvas size, text
    input and current text are as before. *)
Theorem error_event_enters_error_state (s : Instance) :
  fetching (baseImage s) = true ->
  exists s',
    dispatch ErrorEvent s = Some s'
    /\ phase s' = ErrorState
    /\ drawn_text (surface (ctx s')) = Some "图片加载失败"
    /\ currentText s' = currentText s
    /\ textInput s' = textInput s
    /\ canvas s' = canvas s.
Proof.
  intros F. simpl. rewrite F. eexists. split; [reflexivity|].
  repeat split. unfold drawn_text, onerror, fillText, fillRect. simpl.
  now rewrite last_last.
Qed.

Lemma error_event_enters_error_state_witness :
  exists s',
    dispatch ErrorEvent Sample.typed_instance = Some s'
    /\ phase s' = ErrorState
    /\ drawn_text (surface (ctx s')) = Some "图片加载失败"
    /\ currentText s' = Some "Jo"
    /\ textInput s' = textInput Sample.typed_instance
    /\ canvas s' = canvas Sample.typed_instance.
Proof.
  apply (error_event_enters_error_state Sample.typed_instance).
  reflexivity.
Defined.

(** X11: when it draws, [redrawCanvas] falls back to black, 30 px and Arial
    for a colour, font size or font family that is absent or falsy (the
    empty string, 0, [NaN]), and always aligns the text on its centre and
    middle. *)
Theorem redrawCanvas_falsy_settings_default (s : Instance) :
  image_ready (baseImage s) = true ->
  let st := settings (config s) in
  (Js.truthy Js.truthy_string (text_color st) = false ->
   fillStyle (ctx (redrawCanvas s)) = "#000000")
  /\ (Js.truthy Js.truthy_number (font_size st) = false ->
      font_px (font (ctx (redrawCanvas s))) = 30)
  /\ (Js.truthy Js.truthy_string (font_family st) = false ->
      font_face (font (ctx (redrawCanvas s))) = "Arial")
  /\ textAlign (ctx (redrawCanvas s)) = "center"
  /\ textBaseline (ctx (redrawCanvas s)) = "middle".
Proof.
  intros R st. rewrite (redrawCanvas_ready s R). simpl. fold st.
  repeat split; intros H; now rewrite (or_else_falsy _ _ _ H).
Qed.

Lemma redrawCanvas_falsy_settings_default_witness :
  fillStyle (ctx (redrawCanvas Sample.falsy_style_instance)) = "#000000"
  /\ font_px (font (ctx (redrawCanvas Sample.falsy_style_instance))) = 30
  /\ font_face (font (ctx (redrawCanvas Sample.falsy_style_instance)))
     = "Arial".
Proof.
  destruct (redrawCanvas_falsy_settings_default Sample.falsy_style_instance
              eq_refl) as (H1 & H2 & H3 & _).
  split; [exact (H1 eq_refl)|]. split; [exact (H2 eq_refl)|].
  exact (H3 eq_refl).
Defined.

(** ** Runs of events *)

Lemma dispatch_frame (e : Event) (s s' : Instance) :
  dispatch e s = Some s' ->
  config s' = config s
  /\ blockId s' = blockId s
  /\ listeners (textInput s') = listeners (textInput s)
  /\ src (baseImage s') = src (baseImage s)
  /\ exists more, console s' = (console s ++ more)%list.
Proof.
  destruct e as [nw nh| |v]; simpl.
  - destruct (fetching (baseImage s)); [|discriminate].
    intros E. injection E as <-.
    destruct (onload_frame
                (with_baseImage (image_loaded nw nh (baseImage s)) s))
      as (Hb & Hc & Hl & Hk & Hf).
    rewrite Hb, Hc, Hl, Hk, Hf. repeat split.
    exists []. now rewrite app_nil_r.
  - destruct (fetching (baseImage s)); [|discriminate].
    intros E. injection E as <-. repeat split.
    eexists. reflexivity.
  - intros E. injection E as <-.
    destruct (call_listeners_frame "input"
                {| target := {| value := v;
                                listeners := listeners (textInput s) |} |}
                (listeners (textInput s)) (set_input_value v s))
      as (_ & Ht & Hb & Hc & Hl & Hk).
    rewrite Ht, Hb, Hc, Hl, Hk. repeat split.
    exists []. now rewrite app_nil_r.
Qed.

Lemma dispatch_synchronised (e : Event) (s s' : Instance) :
  listeners (textInput s) = [("input", HandleTextInput)] ->
  currentText s = Some (value (textInput s)) ->
  dispatch e s = Some s' ->
  currentText s' = Some (value (textInput s')).
Proof.
  intros L I. destruct e as [nw nh| |v]; simpl.
  - destruct (fetching (baseImage s)); [|discriminate].
    intros E. injection E as <-. apply onload_text.
  - destruct (fetching (baseImage s)); [|discriminate].
    intros E. injection E as <-. exact I.
  - rewrite L. simpl. intros E. injection E as <-.
    unfold handleTextInput.
    match goal with |- context [redrawCanvas ?t] =>
      destruct (redrawCanvas_frame t) as (_ & _ & Ht & Hc & _);
      rewrite Ht, Hc
    end. reflexivity.
Qed.

Lemma dispatch_ready (e : Event) (s s' : Instance) :
  image_ready (baseImage s) = true ->
  fetching (baseImage s) = false ->
  dispatch e s = Some s' ->
  (exists v, e = InputEvent v)
  /\ baseImage s' = baseImage s
  /\ canvas s' = canvas s.
Proof.
  intros R F. destruct e as [nw nh| |v]; simpl;
    try (rewrite F; discriminate).
  intros E. injection E as <-.
  destruct (call_listeners_frame "input"
              {| target := {| value := v;
                              listeners := listeners (textInput s) |} |}
              (listeners (textInput s)) (set_input_value v s))
    as (Hc & _ & Hb & _).
  rewrite Hc, Hb. eauto.
Qed.

Lemma last_nonempty {A : Type} (a : A) (l : list A) (d d' : A) :
  last (a :: l) d = last (a :: l) d'.
Proof.
  revert a. induction l as [|b l IH]; intros a; [reflexivity|].
  change (last (b :: l) d = last (b :: l) d'). apply IH.
Qed.

(** X12: while the image cannot be drawn, typing paints nothing: after any
    sequence of [input] events the context, the canvas and the image are as
    before, and the input holds what was typed last. *)
Theorem typing_while_loading_paints_nothing (vs : list string) :
  forall s : Instance,
    image_ready (baseImage s) = false ->
    exists s',
      run (map InputEvent vs) s = Some s'
      /\ ctx s' = ctx s
      /\ canvas s' = canvas s
      /\ baseImage s' = baseImage s
      /\ value (textInput s') = last vs (value (textInput s)).
Proof.
  induction vs as [|v vs IH]; intros s R; simpl.
  - exists s. repeat split.
  - match goal with |- context [run _ ?x] => set (u := x) end.
    destruct (call_listeners_not_ready "input"
                {| target := textInput (set_input_value v s) |}
                (listeners (textInput (set_input_value v s)))
                (set_input_value v s) R) as (Hb & Hc & Hv).
    destruct (call_listeners_frame "input"
                {| target := textInput (set_input_value v s) |}
                (listeners (textInput (set_input_value v s)))
                (set_input_value v s)) as (_ & Ht & _).
    simpl in Hb, Hc, Hv, Ht. fold u in Hb, Hc, Hv, Ht.
    assert (R' : image_ready (baseImage u) = false) by now rewrite Hb.
    destruct (IH u R') as (s' & E & H1 & H2 & H3 & H4).
    exists s'. split; [exact E|].
    split; [congruence|]. split; [congruence|]. split; [congruence|].
    rewrite H4, Ht. simpl.
    destruct vs as [|a vs']; [reflexivity|].
    apply last_nonempty.
Qed.

Lemma typing_while_loading_paints_nothing_witness :
  exists s',
    run [InputEvent "J"; InputEvent "Jo"] Sample.loading_instance = Some s'
    /\ ctx s' = ctx Sample.loading_instance
    /\ canvas s' = canvas Sample.loading_instance
    /\ baseImage s' = baseImage Sample.loading_instance
    /\ value (textInput s') = "Jo".
Proof.
  apply (typing_while_loading_paints_nothing ["J"; "Jo"]
           Sample.loading_instance).
  reflexivity.
Defined.

(** X13: with the listener of the instance on the input, every run of
    events keeps the current text equal to what the text input holds. *)
Theorem run_keeps_text_synchronised (es : list Event) :
  forall s s' : Instance,
    listeners (textInput s) = [("input", HandleTextInput)] ->
    currentText s = Some (value (textInput s)) ->
    run es s = Some s' ->
    currentText s' = Some (value (textInput s')).
Proof.
  induction es as [|e es IH]; intros s s' L I; simpl.
  - intros E. now injection E as <-.
  - destruct (dispatch e s) as [s1|] eqn:D; [|discriminate].
    intros E. apply (IH s1 s'); [| |exact E].
    + destruct (dispatch_frame e s s1 D) as (_ & _ & H & _). congruence.
    + exact (dispatch_synchronised e s s1 L I D).
Qed.

Lemma run_keeps_text_synchronised_witness :
  exists s',
    run [InputEvent "Joe"; LoadEvent (px 800) (px 600); InputEvent ""]
      Sample.typed_instance = Some s'
    /\ currentText s' = Some (value (textInput s')).
Proof.
  eexists. split; [reflexivity|].
  apply (run_keeps_text_synchronised
           [InputEvent "Joe"; LoadEvent (px 800) (px 600); InputEvent ""]
           Sample.typed_instance); reflexivity.
Defined.

(** X14: no run of events changes the configuration of an instance, its
    block id, the listeners on its text input or the source of its image;
    the console only grows. *)
Theorem run_keeps_configuration (es : list Event) :
  forall s s' : Instance,
    run es s = Some s' ->
    config s' = config s
    /\ blockId s' = blockId s
    /\ listeners (textInput s') = listeners (textInput s)
    /\ src (baseImage s') = src (baseImage s)
    /\ exists more, console s' = (console s ++ more)%list.
Proof.
  induction es as [|e es IH]; intros s s'; simpl.
  - intros E. injection E as <-. repeat split.
    exists []. now rewrite app_nil_r.
  - destruct (dispatch e s) as [s1|] eqn:D; [|discriminate].
    intros E.
    destruct (dispatch_frame e s s1 D) as (A1 & A2 & A3 & A4 & m1 & A5).
    destruct (IH s1 s' E) as (B1 & B2 & B3 & B4 & m2 & B5).
    repeat split; try congruence.
    exists (m1 ++ m2)%list. rewrite B5, A5. now rewrite app_assoc.
Qed.

Lemma run_keeps_configuration_witness :
  exists s',
    run [InputEvent "Joe"; ErrorEvent; InputEvent "J"]
      Sample.loading_instance = Some s'
    /\ config s' = config Sample.loading_instance
    /\ blockId s' = "b1"
    /\ listeners (textInput s') = [("input", HandleTextInput)]
    /\ src (baseImage s') = Some Sample.photo_url
    /\ exists more, console s' = (console Sample.loading_instance ++ more)%list.
Proof.
  eexists. split; [reflexivity|].
  apply (run_keeps_configuration
           [InputEvent "Joe"; ErrorEvent; InputEvent "J"]
           Sample.loading_instance).
  reflexivity.
Defined.

(** X15: once the image is drawable and no event of the image is
    outstanding, the instance stays [Ready]: only [input] events can
    follow, and they change neither the canvas size nor the image. *)
Theorem ready_is_final (es : list Event) :
  forall s s' : Instance,
    image_ready (baseImage s) = true ->
    fetching (baseImage s) = false ->
    run es s = Some s' ->
    phase s' = Ready
    /\ canvas s' = canvas s
    /\ baseImage s' = baseImage s
    /\ forall e, In e es -> exists v, e = InputEvent v.
Proof.
  induction es as [|e es IH]; intros s s' R F; simpl.
  - intros E. injection E as <-. unfold phase. rewrite R.
    repeat split. intros e [].
  - destruct (dispatch e s) as [s1|] eqn:D; [|discriminate].
    intros E. destruct (dispatch_ready e s s1 R F D) as (Hv & Hb & Hc).
    rewrite <- Hb in R, F.
    destruct (IH s1 s' R F E) as (P & C & B & A).
    repeat split; try congruence.
    intros e' [<-|H]; auto.
Qed.

Lemma ready_is_final_witness :
  exists s',
    run [InputEvent "J"; InputEvent "Jo"] Sample.max_500_instance = Some s'
    /\ phase s' = Ready
    /\ canvas s' = canvas Sample.max_500_instance
    /\ baseImage s' = Sample.photo.
Proof.
  eexists. split; [reflexivity|].
  destruct (ready_is_final [InputEvent "J"; InputEvent "Jo"]
              Sample.max_500_instance _ eq_refl eq_refl eq_refl)
    as (H1 & H2 & H3 & _).
  auto.
Defined.

(** ** More on initialisation *)

Lemma getInputById_fresh (d : Document) (i : string)
  (input : HTMLInputElement) :
  getInputById d i = Some input -> listeners input = [].
Proof.
  unfold getInputById. destruct (lookup i (inputs d)); [|discriminate].
  intros E. now injection E as <-.
Qed.

Lemma eqb_append_left (p x y : string) :
  (p ++ x =? p ++ y)%string = (x =? y)%string.
Proof.
  induction p as [|c p IH]; simpl; [reflexivity|].
  now rewrite Ascii.eqb_refl.
Qed.

(** X1: initialisation binds an instance exactly when the page has the
    canvas and the text input of the block and the canvas gives a 2D
    context, whatever the configuration; when it binds none it has logged
    one line. *)
Theorem initialize_binds_iff_elements_found (h : Host) (b : string)
  (cfg : CustomizerInstanceConfig) :
  ((exists s, initializeProductCustomizer h b cfg = Bound s)
   <-> exists node input cx,
         getCanvasById (document h) ("customizer-canvas-" ++ b) = Some node
         /\ getInputById (document h) ("customizer-text-input-" ++ b)
            = Some input
         /\ getContext_2d node = Some cx)
  /\ forall log,
       initializeProductCustomizer h b cfg = Aborted log ->
       List.length log = 1%nat.
Proof.
  unfold initializeProductCustomizer.
  destruct (getCanvasById _ _) as [node|].
  - destruct (getInputById _ _) as [input|].
    + destruct (getContext_2d node) as [cx|] eqn:C.
      * split.
        -- split; [intros _; exists node, input, cx; auto|intros _].
           destruct (Js.truthy Js.truthy_string (imageUrl cfg)); eauto.
        -- intros log.
           destruct (Js.truthy Js.truthy_string (imageUrl cfg));
             discriminate.
      * split.
        -- split; [intros [s E]; discriminate|].
           intros (n & i & c & E1 & _ & E3). injection E1 as <-. congruence.
        -- intros log E. now injection E as <-.
    + split.
      * split; [intros [s E]; discriminate|].
        intros (n & i & c & _ & E2 & _). discriminate.
      * intros log E. now injection E as <-.
  - split.
    + split; [intros [s E]; discriminate|].
      intros (n & i & c & E1 & _). discriminate.
    + intros log E. now injection E as <-.
Qed.

(** X2: with the elements of the block on the page and a non-empty image
    URL, initialisation binds an instance whose image has that URL as
    source, is fetched with [crossOrigin] "anonymous", and whose text input
    carries [handleTextInput] as its one listener; nothing is logged. *)
Theorem initialize_with_url_starts_load (h : Host) (b : string)
  (cfg : CustomizerInstanceConfig) (node : CanvasNode)
  (input : HTMLInputElement) (cx : CanvasRenderingContext2D) (u : string) :
  getCanvasById (document h) ("customizer-canvas-" ++ b) = Some node ->
  getInputById (document h) ("customizer-text-input-" ++ b) = Some input ->
  getContext_2d node = Some cx ->
  imageUrl cfg = Some u ->
  Js.truthy_string u = true ->
  exists s,
    initializeProductCustomizer h b cfg = Bound s
    /\ listeners (textInput s) = [("input", HandleTextInput)]
    /\ src (baseImage s) = Some u
    /\ crossOrigin (baseImage s) = Some "anonymous"
    /\ fetching (baseImage s) = true
    /\ console s = []
    /\ config s = cfg.
Proof.
  intros Hc Hi Hx Hu Ht. unfold initializeProductCustomizer.
  rewrite Hc, Hi, Hx, Hu. simpl. rewrite Ht.
  eexists. split; [reflexivity|].
  match goal with |- context [alreadyCompleteBranch ?t] =>
    destruct (alreadyCompleteBranch_frame t) as (Hb & Hk & Hl & _ & Hf);
    rewrite Hb, Hk, Hl, Hf
  end.
  simpl. rewrite (getInputById_fresh _ _ _ Hi). unfold set_src.
  destruct (lookup u (available_images h)) as [[w ht]|]; repeat split.
Qed.

Lemma initialize_with_url_starts_load_witness :
  exists s,
    initializeProductCustomizer Sample.host_with_photo "b1"
      Sample.config_with_url = Bound s
    /\ listeners (textInput s) = [("input", HandleTextInput)]
    /\ src (baseImage s) = Some Sample.photo_url
    /\ crossOrigin (baseImage s) = Some "anonymous"
    /\ fetching (baseImage s) = true
    /\ console s = []
    /\ config s = Sample.config_with_url.
Proof.
  apply (initialize_with_url_starts_load Sample.host_with_photo "b1"
           Sample.config_with_url
           {| canvas_element := Sample.canvas_500;
              getContext_2d := Some Sample.fresh_ctx |}
           {| value := ""; listeners := [] |} Sample.fresh_ctx
           Sample.photo_url); reflexivity.
Defined.

(** X3: when the host does not have the image at hand, initialisation
    paints nothing and sizes nothing: the instance waits in
    [ImageLoading] with the context and the canvas of the page, and its
    current text is what the input holds or, for an empty input, the
    default text. *)
Theorem initialize_waits_for_image (h : Host) (b : string)
  (cfg : CustomizerInstanceConfig) (node : CanvasNode)
  (input : HTMLInputElement) (cx : CanvasRenderingContext2D) (u : string) :
  getCanvasById (document h) ("customizer-canvas-" ++ b) = Some node ->
  getInputById (document h) ("customizer-text-input-" ++ b) = Some input ->
  getContext_2d node = Some cx ->
  imageUrl cfg = Some u ->
  Js.truthy_string u = true ->
  lookup u (available_images h) = None ->
  exists s,
    initializeProductCustomizer h b cfg = Bound s
    /\ phase s = ImageLoading
    /\ ctx s = cx
    /\ canvas s = canvas_element node
    /\ value (textInput s) = value input
    /\ currentText s
       = (if Js.truthy_string (value input) then Some (value input)
          else default_text (settings cfg)).
Proof.
  intros Hc Hi Hx Hu Ht Ha. unfold initializeProductCustomizer.
  rewrite Hc, Hi, Hx, Hu. simpl. rewrite Ht.
  eexists. split; [reflexivity|].
  unfold alreadyCompleteBranch, set_src. simpl. rewrite Ha. simpl.
  repeat split.
Qed.

Lemma initialize_waits_for_image_witness :
  exists s,
    initializeProductCustomizer Sample.host "b1" Sample.config_with_url
    = Bound s
    /\ phase s = ImageLoading
    /\ ctx s = Sample.fresh_ctx
    /\ canvas s = Sample.canvas_500
    /\ value (textInput s) = ""
    /\ currentText s = Some "Hello".
Proof.
  apply (initialize_waits_for_image Sample.host "b1" Sample.config_with_url
           {| canvas_element := Sample.canvas_500;
              getContext_2d := Some Sample.fresh_ctx |}
           {| value := ""; listeners := [] |} Sample.fresh_ctx
           Sample.photo_url); reflexivity.
Defined.

(** X4: the elements of another block do not matter: putting the canvas
    and the text input of a block [b'] on the page leaves what
    initialisation does for a block [b] other than [b'] as it was. *)
Theorem initialize_ignores_other_blocks (h : Host) (b b' : string)
  (cfg : CustomizerInstanceConfig) (node : CanvasNode) (v : string) :
  b' <> b ->
  initializeProductCustomizer (with_block_elements b' node v h) b cfg
  = initializeProductCustomizer h b cfg.
Proof.
  intros N. apply String.eqb_neq in N.
  unfold initializeProductCustomizer, getCanvasById, getInputById.
  cbn [with_block_elements document canvases inputs lookup].
  rewrite !eqb_append_left, N. reflexivity.
Qed.

Lemma initialize_ignores_other_blocks_witness :
  initializeProductCustomizer
    (with_block_elements "b10"
       {| canvas_element := Sample.canvas_300; getContext_2d := None |}
       "other" Sample.host)
    "b1" Sample.config_with_url
  = initializeProductCustomizer Sample.host "b1" Sample.config_with_url.
Proof.
  apply (initialize_ignores_other_blocks Sample.host "b1" "b10").
  apply String.eqb_neq. reflexivity.
Defined.

(** ** The page-ready handler *)

Lemma fold_initializeEntry (h : Host) (entries : list RegistryEntry) :
  forall acc,
    fold_left (initializeEntry h) entries acc
    = ((fst acc
        ++ flat_map
             (fun e =>
                ("[Customizer] 初始化 Block ID: " ++ entry_key e)%string
                :: init_log
                     (initializeProductCustomizer h (entry_key e)
                        (entry_config e)))
             (filter entry_own entries))%list,
       (snd acc
        ++ map
             (fun e =>
                (entry_key e,
                 initializeProductCustomizer h (entry_key e) (entry_config e)))
             (filter entry_own entries))%list).
Proof.
  induction entries as [|e es IH]; intros [log rs]; simpl.
  - now rewrite !app_nil_r.
  - rewrite IH. unfold initializeEntry.
    destruct (entry_own e); simpl; [|reflexivity].
    now rewrite <- !app_assoc.
Qed.

(** X16: on page ready nothing happens when the registry is not defined;
    otherwise exactly the registry's own properties are initialised, each
    once and in enumeration order, whatever the initialisations before it
    did, and the console gets, per block, the announcement followed by what
    its initialisation logged. *)
Theorem page_ready_initialises_own_entries (h : Host)
  (entries : list RegistryEntry) :
  onDOMContentLoaded h None = ([], [])
  /\ snd (onDOMContentLoaded h (Some entries))
     = map
         (fun e =>
            (entry_key e,
             initializeProductCustomizer h (entry_key e) (entry_config e)))
         (filter entry_own entries)
  /\ fst (onDOMContentLoaded h (Some entries))
     = flat_map
         (fun e =>
            ("[Customizer] 初始化 Block ID: " ++ entry_key e)%string
            :: init_log
                 (initializeProductCustomizer h (entry_key e)
                    (entry_config e)))
         (filter entry_own entries).
Proof.
  split; [reflexivity|]. simpl. rewrite fold_initializeEntry. auto.
Qed.

(** ** The product list of the admin page *)

Lemma replace_without_occurrence (search replacement : string) :
  forall s : string,
    Admin.occurs search s = false ->
    Admin.replace search replacement s = s.
Proof.
  induction s as [|c s IH]; simpl; intros H;
    apply orb_false_iff in H; destruct H as [H1 H2]; rewrite H1.
  - reflexivity.
  - now rewrite (IH H2).
Qed.

Lemma has_space_formatted (c a : string) :
  Admin.has_space (c ++ " " ++ a) = true.
Proof.
  induction c as [|x c IH]; [reflexivity|].
  change (Admin.has_space (String x (c ++ " " ++ a)) = true).
  cbn [Admin.has_space]. rewrite IH. apply orb_true_r.
Qed.

(** X17: for a product whose id is the global id
    [gid://shopify/Product/<n>], the row links to
    [shopify:admin/products/<n>], whatever [n] is. *)
Theorem product_url_strips_gid_prefix (item : Admin.Product) (n : string) :
  Admin.id item = "gid://shopify/Product/" ++ n ->
  Admin.item_url (Admin.renderItem item) = "shopify:admin/products/" ++ n.
Proof.
  intros E. unfold Admin.renderItem. simpl. rewrite E. reflexivity.
Qed.

Lemma product_url_strips_gid_prefix_witness :
  Admin.item_url (Admin.renderItem Sample.shirt)
  = "shopify:admin/products/8421".
Proof.
  apply (product_url_strips_gid_prefix Sample.shirt "8421"). reflexivity.
Defined.

(** X18: for a product whose id does not contain
    [gid://shopify/Product/], the row links to [shopify:admin/products/]
    followed by the id as it is. *)
Theorem product_url_keeps_other_ids (item : Admin.Product) :
  Admin.occurs "gid://shopify/Product/" (Admin.id item) = false ->
  Admin.item_url (Admin.renderItem item)
  = "shopify:admin/products/" ++ Admin.id item.
Proof.
  intros H. unfold Admin.renderItem. simpl.
  now rewrite (replace_without_occurrence _ _ _ H).
Qed.

Lemma product_url_keeps_other_ids_witness :
  Admin.item_url (Admin.renderItem Sample.draft)
  = "shopify:admin/products/8422".
Proof.
  apply (product_url_keeps_other_ids Sample.draft). reflexivity.
Defined.

(** X19: the price line of a row is "未设置价格" exactly when the product
    has no non-empty minimum variant amount; otherwise it is the currency
    code, a space and the amount. *)
Theorem price_placeholder_iff_no_amount (item : Admin.Product) :
  let price := Admin.item_price (Admin.renderItem item) in
  let priced :=
    match Admin.min_amount (Admin.priceRangeV2 item) with
    | Some (_, a) => Js.truthy_string a
    | None => false
    end in
  (price = "未设置价格" <-> priced = false)
  /\ (forall m a,
        Admin.min_amount (Admin.priceRangeV2 item) = Some (m, a) ->
        Js.truthy_string a = true ->
        price = Admin.currencyCode m ++ " " ++ a).
Proof.
  unfold Admin.renderItem. cbn [Admin.item_price].
  destruct (Admin.min_amount _) as [[m a]|].
  - destruct (Js.truthy_string a) eqn:T.
    + split.
      * split; [|discriminate]. intros E.
        apply (f_equal Admin.has_space) in E.
        rewrite has_space_formatted in E. discriminate.
      * intros m' a' E _. now injection E as <- <-.
    + split; [tauto|]. intros m' a' E T'. injection E as <- <-. congruence.
  - split; [tauto|]. discriminate.
Qed.
